(** * Capsule examples hub: signing handlers and the [v]-byte adjustment

    A shallow embedding of the server-side signing recipes of the
    repository:

    - [customSignMessage] and its adjustment of the recovery byte
      (Express, Alchemy account abstraction recipe);
    - [alchemySessionSignHandler] and [ethersSessionSignHandler]
      (Express, session-based wallets);
    - [signWithEthers] and [signWithCosmJS] (Deno, pregenerated wallets).

    JavaScript strings are modelled by [string]; the code units are the
    256 values of [ascii] (Latin-1), which covers every hexadecimal
    signature.  Numbers that the code handles are small integers and are
    modelled by [Z]; [NaN] is [None].  Calls to the SDKs, to the chain
    libraries and to the helper modules are recorded, with their results,
    in a log that the handler threads through its execution. *)

From Stdlib Require Import ZArith List Bool Ascii String Lia.
Import ListNotations.

Local Open Scope string_scope.
Local Open Scope Z_scope.

(* ================================================================== *)
(** ** JavaScript string primitives used by the source *)
(* ================================================================== *)

Module Js.

(** [s.slice(-2)]: the last two code units, the whole string when it
    is shorter. *)
Definition slice_last2 (s : string) : string :=
  substring (String.length s - 2) 2 s.

(** [s.slice(0, -2)]: everything but the last two code units, the
    empty string when [s] is shorter. *)
Definition slice_drop2 (s : string) : string :=
  substring 0 (String.length s - 2) s.

(** [StrWhiteSpaceChar] restricted to Latin-1: TAB, LF, VT, FF, CR,
    SP and NBSP. *)
Definition is_whitespace (c : ascii) : bool :=
  let n := N_of_ascii c in
  (((9 <=? n) && (n <=? 13)) || (n =? 32) || (n =? 160))%N.

Fixpoint trim_start (s : string) : string :=
  match s with
  | String c r => if is_whitespace c then trim_start r else s
  | EmptyString => EmptyString
  end.

(** Value of a radix-16 digit, either case. *)
Definition hex_digit_value (c : ascii) : option Z :=
  let n := N_of_ascii c in
  if ((48 <=? n) && (n <=? 57))%N then Some (Z.of_N n - 48)
  else if ((97 <=? n) && (n <=? 102))%N then Some (Z.of_N n - 87)
  else if ((65 <=? n) && (n <=? 70))%N then Some (Z.of_N n - 55)
  else None.

(** The longest prefix of radix-16 digits, as the list of their
    values (step 11 of [parseInt]). *)
Fixpoint digits_prefix (s : string) : list Z :=
  match s with
  | String c r =>
      match hex_digit_value c with
      | Some d => d :: digits_prefix r
      | None => []
      end
  | EmptyString => []
  end.

Definition digits_value (ds : list Z) : Z :=
  fold_left (fun acc d => 16 * acc + d) ds 0.

(** [parseInt(s, 16)]: leading white space is skipped, one sign is
    read, a [0x] or [0X] prefix is stripped, and the longest prefix of
    digits is converted; [None] is [NaN].  [-0] and [0] are both [0]:
    the source only compares the result with 27 and adds 27 to it. *)
Definition parseInt16 (s : string) : option Z :=
  let s0 := trim_start s in
  let '(sign, s1) :=
    match s0 with
    | String c r =>
        if Ascii.eqb c "-" then (-1, r)
        else if Ascii.eqb c "+" then (1, r)
        else (1, s0)
    | EmptyString => (1, s0)
    end in
  let s2 :=
    match s1 with
    | String c (String x r) =>
        if Ascii.eqb c "0" && (Ascii.eqb x "x" || Ascii.eqb x "X")
        then r else s1
    | _ => s1
    end in
  match digits_prefix s2 with
  | [] => None
  | ds => Some (sign * digits_value ds)
  end.

Definition hex_char (d : Z) : ascii :=
  if d <? 10 then ascii_of_N (Z.to_N (48 + d))
  else ascii_of_N (Z.to_N (87 + d)).

(** Digits of a non-negative integer in radix 16, most significant
    first; [fuel] bounds the number of digits. *)
Fixpoint hex_digits (fuel : nat) (n : Z) (acc : string) : string :=
  match fuel with
  | O => acc
  | S fuel' =>
      let acc' := String (hex_char (n mod 16)) acc in
      if n / 16 =? 0 then acc' else hex_digits fuel' (n / 16) acc'
  end.

(** [n.toString(16)] for an integer [n]. *)
Definition toString16 (n : Z) : string :=
  if n <? 0
  then String "-" (hex_digits (S (Z.to_nat (Z.log2 (- n)))) (- n) EmptyString)
  else hex_digits (S (Z.to_nat (Z.log2 n))) n EmptyString.

(** [s.padStart(2, "0")]. *)
Definition padStart2 (s : string) : string :=
  match String.length s with
  | O => "00"
  | S O => String "0" s
  | _ => s
  end.

End Js.

(* ================================================================== *)
(** ** The signature normalizer of [customSignMessage] *)
(* ================================================================== *)

(** The block "Adjust [v] if it is below 27" of [customSignMessage]:
<<
  const lastByte = parseInt(signature.slice(-2), 16);
  if (lastByte < 27) {
    const adjustedV = (lastByte + 27).toString(16).padStart(2, "0");
    signature = signature.slice(0, -2) + adjustedV;
  }
>>
    [NaN < 27] is false, so a signature without a readable last byte is
    left as it is. *)
Definition adjustV (signature : string) : string :=
  match Js.parseInt16 (Js.slice_last2 signature) with
  | Some lastByte =>
      if lastByte <? 27 then
        let adjustedV := Js.padStart2 (Js.toString16 (lastByte + 27)) in
        Js.slice_drop2 signature ++ adjustedV
      else signature
  | None => signature
  end.

(** The value [customSignMessage] resolves to once the signature is
    known: [`0x${signature}`]. *)
Definition hashOfSignature (signature : string) : string :=
  "0x" ++ adjustV signature.

(** *** Signatures as bytes

    A signature is the hexadecimal text of a byte string, two digits
    per byte.  [bytes_of_hex] reads it; [hex_of_bytes] writes the
    lower-case text, the form the SDK and [toString(16)] produce. *)
Fixpoint bytes_of_hex (s : string) : option (list Z) :=
  match s with
  | EmptyString => Some []
  | String c1 (String c2 r) =>
      match Js.hex_digit_value c1, Js.hex_digit_value c2, bytes_of_hex r with
      | Some h, Some l, Some bs => Some (16 * h + l :: bs)
      | _, _, _ => None
      end
  | String _ EmptyString => None
  end.

Definition hex_of_byte (b : Z) : string :=
  String (Js.hex_char (b / 16)) (String (Js.hex_char (b mod 16)) EmptyString).

Fixpoint hex_of_bytes (bs : list Z) : string :=
  match bs with
  | [] => EmptyString
  | b :: r => hex_of_byte b ++ hex_of_bytes r
  end.

(** The recovery byte after the adjustment. *)
Definition adjust_byte (b : Z) : Z := if b <? 27 then b + 27 else b.

(* ================================================================== *)
(** ** Collaborators, the call log and the handler monad *)
(* ================================================================== *)

(** A thrown JavaScript value (an [Error] with its message). *)
Definition Exn := string.

(** [{ email?: string; session?: string }], the shape the Express
    handlers give to [req.body]. *)
Record SessionBody := {
  body_email : option string;
  body_session : option string
}.

(** [interface RequestBody { email }] of the Deno handlers; the field
    may be absent from the JSON the client sent. *)
Record RequestBody := { rb_email : option string }.

(** What [simulateVerifyToken] returns for a valid token. *)
Record User := { user_email : string }.

(** The Deno request as the handlers read it: the value of
    [req.headers.get("Authorization")]. *)
Record DenoRequest := { authorization : option string }.

(** [process.env] and [Deno.env.get]. *)
Definition Env := string -> option string.

(** ethers' [TransactionRequest], the fields the handlers fill. *)
Record TransactionRequest := {
  tx_to : string;
  tx_from : option string;
  tx_value : Z;
  tx_nonce : Z;
  tx_gasLimit : Z;
  tx_gasPrice : option Z
}.

(** One element of [BatchUserOperationCallData]. *)
Record UserOperationCallData := {
  target : string;
  data : string
}.

Record Coin := { denom : string; amount : string }.
Record StdFee := { fee_amount : list Coin; gas : string }.
Record MsgSend := {
  fromAddress : string;
  toAddress : string;
  msg_amount : list Coin
}.
Record MsgSendEncodeObject := { typeUrl : string; value : MsgSend }.

(** The calls a handler makes to code outside of it, indexed by the
    type of what the call returns. *)
Inductive Call : Type -> Type :=
(* request helpers *)
| simulateVerifyToken (token : option string) : Call (option User)
| req_json : Call RequestBody
(* Capsule server SDK *)
| new_CapsuleServer (environment apiKey : string) : Call unit
| importSession (session : string) : Call unit
| hasPregenWallet (email : string) : Call bool
| setUserShare (share : string) : Call unit
| capsule_wallets : Call (list string)
| capsule_signMessage (walletId messageBase64 : string) : Call (option string)
(* key share store and encryption helpers *)
| getKeyShareInDB (email : string) : Call (option string)
| decrypt (keyShare : string) : Call string
(* ethers *)
| new_JsonRpcProvider (url : string) : Call unit
| new_CapsuleEthersSigner : Call unit
| signer_getAddress : Call string
| signer_signMessage (message : string) : Call string
| getTransactionCount (address : string) : Call Z
| getFeeData : Call (option Z)
| signer_signTransaction (tx : TransactionRequest) : Call string
(* viem and Alchemy account abstraction *)
| createCapsuleAccount : Call unit
| createCapsuleViemClient (chain transport : string) : Call unit
| new_WalletClientSigner (signerType : string) : Call unit
| createModularAccountAlchemyClient (apiKey chain policyId : string) : Call unit
| sendUserOperation (uo : list UserOperationCallData) : Call string
(* CosmJS *)
| new_CapsuleProtoSigner (prefix : string) : Call unit
| connectWithSigner (endpoint : string) : Call unit
| protoSigner_address : Call string
| stargate_sign (signerAddress : string) (messages : list MsgSendEncodeObject)
    (fee : StdFee) (memo : string) : Call string.

(** A log entry: a call with what it returned or threw, or a line
    written with [console.error]. *)
Inductive Event : Type :=
| Ev {X : Type} (c : Call X) (r : Exn + X)
| Console_error (label : string) (e : Exn).

Definition History := list Event.

(** The collaborators: what each call answers, given everything that
    happened before it in the request. *)
Definition World := forall X : Type, History -> Call X -> Exn + X.

(** The component a call belongs to. *)
Inductive Service :=
| RequestHelper | IdentityService | KeyShareStore | Encryption
| ChainLibrary | Bundler.

Definition service_of {X} (c : Call X) : Service :=
  match c with
  | simulateVerifyToken _ | req_json => RequestHelper
  | new_CapsuleServer _ _ | importSession _ | hasPregenWallet _
  | setUserShare _ | capsule_wallets | capsule_signMessage _ _ => IdentityService
  | getKeyShareInDB _ => KeyShareStore
  | decrypt _ => Encryption
  | new_JsonRpcProvider _ | new_CapsuleEthersSigner | signer_getAddress
  | signer_signMessage _ | getTransactionCount _ | getFeeData
  | signer_signTransaction _ | createCapsuleAccount
  | createCapsuleViemClient _ _ | new_WalletClientSigner _
  | new_CapsuleProtoSigner _ | connectWithSigner _ | protoSigner_address
  | stargate_sign _ _ _ _ => ChainLibrary
  | createModularAccountAlchemyClient _ _ _ | sendUserOperation _ => Bundler
  end.

Definition service_eqb (a b : Service) : bool :=
  match a, b with
  | RequestHelper, RequestHelper | IdentityService, IdentityService
  | KeyShareStore, KeyShareStore | Encryption, Encryption
  | ChainLibrary, ChainLibrary | Bundler, Bundler => true
  | _, _ => false
  end.

(** [touches s ev]: the entry is a call to component [s]. *)
Definition touches (s : Service) (ev : Event) : bool :=
  match ev with
  | Ev c _ => service_eqb (service_of c) s
  | Console_error _ _ => false
  end.

(** Calls that leave the process: everything but the request helpers
    and the local key-share helpers. *)
Definition network_call (ev : Event) : bool :=
  touches IdentityService ev || touches ChainLibrary ev || touches Bundler ev.

Definition is_log (ev : Event) : bool :=
  match ev with Console_error _ _ => true | Ev _ _ => false end.

(** The entry is a call that threw. *)
Definition threw (ev : Event) : bool :=
  match ev with
  | Ev _ (inl _) => true
  | _ => false
  end.

Definition thrown_value (ev : Event) : option Exn :=
  match ev with
  | Ev _ (inl e) => Some e
  | _ => None
  end.

(** What the wallet-existence check answered, when the entry is one. *)
Definition wallet_check_answer (ev : Event) : option bool :=
  match ev with
  | Ev c r =>
      match c in Call X return Exn + X -> option bool with
      | hasPregenWallet _ =>
          fun r => match r with inr b => Some b | inl _ => None end
      | _ => fun _ => None
      end r
  | Console_error _ _ => None
  end.

(** What the key-share store answered, when the entry is a lookup. *)
Definition key_share_answer (ev : Event) : option (option string) :=
  match ev with
  | Ev c r =>
      match c in Call X return Exn + X -> option (option string) with
      | getKeyShareInDB _ =>
          fun r => match r with inr k => Some k | inl _ => None end
      | _ => fun _ => None
      end r
  | Console_error _ _ => None
  end.

(** The subject the token verification returned, when the entry is one
    and the token was valid. *)
Definition verified_subject (ev : Event) : option User :=
  match ev with
  | Ev c r =>
      match c in Call X return Exn + X -> option User with
      | simulateVerifyToken _ =>
          fun r => match r with inr u => u | inl _ => None end
      | _ => fun _ => None
      end r
  | Console_error _ _ => None
  end.

(** The body [req.json()] resolved to, when the entry is that call. *)
Definition parsed_body (ev : Event) : option RequestBody :=
  match ev with
  | Ev c r =>
      match c in Call X return Exn + X -> option RequestBody with
      | req_json =>
          fun r => match r with inr b => Some b | inl _ => None end
      | _ => fun _ => None
      end r
  | Console_error _ _ => None
  end.

(** The batch handed to [sendUserOperation] and what the call
    returned, when the entry is that call. *)
Definition submitted_batch (ev : Event)
  : option (list UserOperationCallData * (Exn + string)) :=
  match ev with
  | Ev c r =>
      match c in Call X
            return Exn + X -> option (list UserOperationCallData * (Exn + string))
      with
      | sendUserOperation uo => fun r => Some (uo, r)
      | _ => fun _ => None
      end r
  | Console_error _ _ => None
  end.

Definition is_wallet_check (ev : Event) : bool :=
  match ev with Ev (hasPregenWallet _) _ => true | _ => false end.
Definition is_key_share_lookup (ev : Event) : bool :=
  match ev with Ev (getKeyShareInDB _) _ => true | _ => false end.
Definition is_decrypt (ev : Event) : bool :=
  match ev with Ev (decrypt _) _ => true | _ => false end.
Definition is_setUserShare (ev : Event) : bool :=
  match ev with Ev (setUserShare _) _ => true | _ => false end.

(** [filter_map] over a log. *)
Fixpoint collect {A} (f : Event -> option A) (h : History) : list A :=
  match h with
  | [] => []
  | ev :: r => match f ev with
               | Some a => a :: collect f r
               | None => collect f r
               end
  end.

Definition count (p : Event -> bool) (h : History) : nat :=
  List.length (filter p h).

(** An HTTP response: plain text, or a JSON object given by its fields. *)
Inductive Body :=
| Text (s : string)
| Json (fields : list (string * string)).

Record Response := { status : Z; body : Body }.

(** How a handler invocation ends: a response is sent; the error is
    handed to Express' [next]; the promise the handler returned
    rejects. *)
Inductive Outcome :=
| Sent (r : Response)
| Next (e : Exn)
| Rejected (e : Exn).

(** A finished invocation: its log and how it ended. *)
Definition Run : Type := History * Outcome.

Definition trace (r : Run) : History := fst r.
Definition outcome (r : Run) : Outcome := snd r.

Definition status_of (r : Run) : option Z :=
  match outcome r with
  | Sent resp => Some (status resp)
  | _ => None
  end.

(** A JavaScript value used as a condition: [undefined] and the empty
    string are falsy. *)
Definition truthy (v : option string) : option string :=
  match v with
  | Some s => if String.eqb s "" then None else Some s
  | None => None
  end.

(** [s.split(" ")]. *)
Fixpoint split_space (s : string) : list string :=
  match s with
  | EmptyString => [EmptyString]
  | String c r =>
      if Ascii.eqb c " " then EmptyString :: split_space r
      else match split_space r with
           | x :: xs => String c x :: xs
           | [] => [String c EmptyString]
           end
  end.

(** [ethers.parseEther] at the two literals of the source, in wei. *)
Definition parseEther_0_001 : Z := 1000000000000000.
Definition parseEther_0_01 : Z := 10000000000000000.

Definition EXAMPLE_CONTRACT_ADDRESS : string :=
  "0x7920b6d8b07f0b9a3b96f238c64e022278db1419".

(* ================================================================== *)
(** ** The handlers *)
(* ================================================================== *)

(** A computation reads the log, may extend it, and either returns or
    throws. *)
Definition M (A : Type) : Type := History -> History * (Exn + A).

Definition ret {A} (a : A) : M A := fun h => (h, inr a).

Definition throw {A} (e : Exn) : M A := fun h => (h, inl e).

Definition bind {A B} (m : M A) (k : A -> M B) : M B :=
  fun h =>
    match m h with
    | (h', inr a) => k a h'
    | (h', inl e) => (h', inl e)
    end.

Notation "x <- m ;; k" := (bind m (fun x => k))
  (at level 61, m at next level, right associativity).
Notation "m ;;; k" := (bind m (fun _ => k))
  (at level 61, right associativity).

(** [xs.map(f)] for an [f] that may throw: left to right, stopping at
    the first throw. *)
Fixpoint mapM {A B} (f : A -> M B) (xs : list A) : M (list B) :=
  match xs with
  | [] => ret []
  | x :: r => y <- f x ;; ys <- mapM f r ;; ret (y :: ys)
  end.

Definition text_response (code : Z) (message : string) : Response :=
  {| status := code; body := Text message |}.

Definition json_response (code : Z) (fields : list (string * string)) : Response :=
  {| status := code; body := Json fields |}.

Section Handlers.

Variable world : World.

(** viem's [hashMessage] and [encodeFunctionData] (the latter applied
    to the ABI of the [Example] artifact, which throws for a function
    the ABI does not have), and the SDK's [hexStringToBase64]. *)
Variable hashMessage : string -> string.
Variable hexStringToBase64 : string -> string.
Variable encodeFunctionData : string -> list Z -> Exn + string.

(** Perform a call: ask the collaborator, log the call with its
    result, and return or throw accordingly. *)
Definition call {X} (c : Call X) : M X :=
  fun h => let r := world X h c in ((h ++ [Ev c r])%list, r).

Definition lift {A} (r : Exn + A) : M A := fun h => (h, r).

(** [customSignMessage(capsule, message)]. *)
Definition customSignMessage (message : string) : M string :=
  let hashedMessage := hashMessage message in
  wallets <- call capsule_wallets ;;
  match wallets with
  | [] => throw "TypeError: Cannot read properties of undefined (reading 'id')"
  | walletId :: _ =>
      res <- call (capsule_signMessage walletId (hexStringToBase64 hashedMessage)) ;;
      match res with
      | None =>
          throw "TypeError: Cannot read properties of undefined (reading 'slice')"
      | Some signature => ret (hashOfSignature signature)
      end
  end.

(** The batch of [alchemySessionSignHandler]:
    [[1, 2, 3, 4, 5].map((x) => ({ target, data }))]. *)
Definition demoUserOperations : M (list UserOperationCallData) :=
  mapM (fun x =>
          encoded <- lift (encodeFunctionData "changeX" [x]) ;;
          ret {| target := EXAMPLE_CONTRACT_ADDRESS; data := encoded |})
       [1; 2; 3; 4; 5].

(** The [try] block of [alchemySessionSignHandler]. *)
Definition alchemySessionSignHandler_try (env : Env) (req : SessionBody)
  : M Response :=
  match truthy (body_session req) with
  | None =>
      ret (text_response 400
             "Session is required. Ensure the client passes a valid session.")
  | Some session =>
      match truthy (env "CAPSULE_API_KEY") with
      | None =>
          ret (text_response 500
                 "CAPSULE_API_KEY not set. Set it in the environment before using this handler.")
      | Some CAPSULE_API_KEY =>
          match truthy (env "ALCHEMY_API_KEY"),
                truthy (env "ALCHEMY_GAS_POLICY_ID") with
          | Some ALCHEMY_API_KEY, Some ALCHEMY_GAS_POLICY_ID =>
              call (new_CapsuleServer "BETA" CAPSULE_API_KEY) ;;;
              call (importSession session) ;;;
              call createCapsuleAccount ;;;
              call (createCapsuleViemClient "arbitrumSepolia"
                      "https://arbitrum-sepolia-rpc.publicnode.com") ;;;
              call (new_WalletClientSigner "capsule") ;;;
              call (createModularAccountAlchemyClient ALCHEMY_API_KEY
                      "arbitrumSepolia" ALCHEMY_GAS_POLICY_ID) ;;;
              uo <- demoUserOperations ;;
              userOperationResult <- call (sendUserOperation uo) ;;
              ret (json_response 200
                     [("message",
                       "Sent user operation using Alchemy + Capsule (session-based wallet, viem-based).");
                      ("userOperationResult", userOperationResult)])
          | _, _ =>
              ret (text_response 500
                     "ALCHEMY_API_KEY or ALCHEMY_GAS_POLICY_ID not set. Provide these credentials to use Alchemy's AA.")
          end
      end
  end.

(** The [try] block of [ethersSessionSignHandler]. *)
Definition ethersSessionSignHandler_try (env : Env) (req : SessionBody)
  : M Response :=
  match truthy (body_email req), truthy (body_session req) with
  | Some email, Some session =>
      match truthy (env "CAPSULE_API_KEY") with
      | None =>
          ret (text_response 500
                 "Set CAPSULE_API_KEY in the environment before using this handler.")
      | Some CAPSULE_API_KEY =>
          call (new_CapsuleServer "BETA" CAPSULE_API_KEY) ;;;
          call (importSession session) ;;;
          call (new_JsonRpcProvider "https://ethereum-sepolia-rpc.publicnode.com") ;;;
          call new_CapsuleEthersSigner ;;;
          address <- call signer_getAddress ;;
          nonce <- call (getTransactionCount address) ;;
          gasPrice <- call getFeeData ;;
          let tx := {| tx_to := address;
                       tx_from := Some address;
                       tx_value := parseEther_0_001;
                       tx_nonce := nonce;
                       tx_gasLimit := 21000;
                       tx_gasPrice := gasPrice |} in
          signedTx <- call (signer_signTransaction tx) ;;
          ret (json_response 200
                 [("message",
                   "Transaction signed using Ethers + Capsule (session-based wallet).");
                  ("signedTransaction", signedTx)])
      end
  | _, _ =>
      ret (text_response 400
             "Provide both `email` and `session` in the request body.")
  end.

(** [try { ... } catch (error) { console.error(label, error); next(error); }]
    around the body of an Express handler. *)
Definition express_try_catch (label : string) (block : M Response) : Run :=
  match block [] with
  | (h, inr resp) => (h, Sent resp)
  | (h, inl error) => ((h ++ [Console_error label error])%list, Next error)
  end.

Definition alchemySessionSignHandler (env : Env) (req : SessionBody) : Run :=
  express_try_catch "Error in alchemySessionSignHandler:"
    (alchemySessionSignHandler_try env req).

Definition ethersSessionSignHandler (env : Env) (req : SessionBody) : Run :=
  express_try_catch "Error in ethersSessionSignHandler:"
    (ethersSessionSignHandler_try env req).

(** The steps the two Deno handlers share, from the [Authorization]
    header to [setUserShare]; [continue] is the chain-specific rest,
    which receives nothing from these steps but their effects. *)
Definition pregen_prologue (env : Env) (req : DenoRequest)
    (continue : M Response) : M Response :=
  match truthy (authorization req) with
  | None => ret (text_response 401 "Unauthorized")
  | Some authHeader =>
      if negb (String.prefix "Bearer " authHeader)
      then ret (text_response 401 "Unauthorized")
      else
        let token := nth_error (split_space authHeader) 1 in
        user <- call (simulateVerifyToken token) ;;
        match user with
        | None => ret (text_response 401 "Unauthorized")
        | Some user =>
            requestBody <- call req_json ;;
            match rb_email requestBody with
            | None => ret (text_response 403 "Forbidden")
            | Some email =>
                if negb (String.eqb (user_email user) email)
                then ret (text_response 403 "Forbidden")
                else
                  match truthy (env "CAPSULE_API_KEY") with
                  | None => ret (text_response 500 "CAPSULE_API_KEY not set")
                  | Some CAPSULE_API_KEY =>
                      call (new_CapsuleServer "BETA" CAPSULE_API_KEY) ;;;
                      hasWallet <- call (hasPregenWallet email) ;;
                      if negb hasWallet
                      then ret (text_response 400 "Wallet does not exist")
                      else
                        keyShare <- call (getKeyShareInDB email) ;;
                        match truthy keyShare with
                        | None =>
                            ret (text_response 400 "Key share does not exist")
                        | Some keyShare =>
                            decryptedKeyShare <- call (decrypt keyShare) ;;
                            call (setUserShare decryptedKeyShare) ;;;
                            continue
                        end
                  end
            end
        end
  end.

(** The promise an [async] Deno handler returns: resolved with the
    response, or rejected with what was thrown (the handlers have no
    [try]). *)
Definition async_handler (block : M Response) : Run :=
  match block [] with
  | (h, inr resp) => (h, Sent resp)
  | (h, inl error) => (h, Rejected error)
  end.

(** [signWithEthers] (Deno). *)
Definition signWithEthers (env : Env) (req : DenoRequest) : Run :=
  async_handler
    (pregen_prologue env req
       (call (new_JsonRpcProvider "https://ethereum-sepolia-rpc.publicnode.com") ;;;
        call new_CapsuleEthersSigner ;;;
        address <- call signer_getAddress ;;
        signMessageResult <-
          call (signer_signMessage "Sign with Capsule PreGen and Capsule Ethers Signer") ;;
        nonce <- call (getTransactionCount address) ;;
        gasPrice <- call getFeeData ;;
        let demoTx := {| tx_to := address;
                         tx_from := None;
                         tx_value := parseEther_0_01;
                         tx_nonce := nonce;
                         tx_gasLimit := 21000;
                         tx_gasPrice := gasPrice |} in
        signTxResult <- call (signer_signTransaction demoTx) ;;
        ret (json_response 200
               [("route", "signWithEthers");
                ("signMessageResult", signMessageResult);
                ("signTxResult", signTxResult)]))).

(** [signWithCosmJS] (Deno). *)
Definition signWithCosmJS (env : Env) (req : DenoRequest) : Run :=
  async_handler
    (pregen_prologue env req
       (call (new_CapsuleProtoSigner "cosmos") ;;;
        call (connectWithSigner "https://rpc-t.cosmos.nodestake.top") ;;;
        let toAddress := "cosmos1..." in
        fromAddress <- call protoSigner_address ;;
        let amount := {| denom := "uatom"; amount := "1000" |} in
        let fee := {| fee_amount := [{| denom := "uatom"; amount := "500" |}];
                      gas := "200000" |} in
        let message := {| fromAddress := fromAddress;
                          toAddress := toAddress;
                          msg_amount := [amount] |} in
        let demoTxMessage := {| typeUrl := "/cosmos.bank.v1beta1.MsgSend";
                                value := message |} in
        let memo := "Signed with Capsule" in
        signResult <- call (stargate_sign fromAddress [demoTxMessage] fee memo) ;;
        ret (json_response 200
               [("route", "signWithCosmJS"); ("signResult", signResult)]))).

End Handlers.

(* ================================================================== *)
(** ** Observations on runs *)
(* ================================================================== *)

(** The last byte of a hexadecimal signature. *)
Definition final_byte (s : string) : option Z :=
  match bytes_of_hex s with
  | Some bs => List.last (map Some bs) None
  | None => None
  end.

Definition wallet_confirmed (ev : Event) : bool :=
  match wallet_check_answer ev with Some true => true | _ => false end.

Definition wallet_denied (ev : Event) : bool :=
  match wallet_check_answer ev with Some false => true | _ => false end.

Definition key_share_missing (ev : Event) : bool :=
  match key_share_answer ev with
  | Some k => match truthy k with None => true | Some _ => false end
  | None => false
  end.

(** An exception was caught and reported: it was logged, and either
    handed to the error-reporting collaborator or answered with a 500. *)
Definition caught_and_reported (r : Run) : Prop :=
  existsb is_log (trace r) = true /\
  ((exists e, outcome r = Next e) \/ status_of r = Some 500).

(* ================================================================== *)
(** ** Reasoning about handlers: postconditions *)
(* ================================================================== *)

(** [wp m h Q]: running [m] from the log [h] ends in a log and a result
    that satisfy [Q]. *)
Definition wp {A} (m : M A) (h : History) (Q : History * (Exn + A) -> Prop) : Prop :=
  Q (m h).

(** [P] holds of every way to cut the log [h] in three: the entries
    before a given entry (after [done], already passed), that entry,
    and the entries after it. *)
Fixpoint all_splits {A} (P : list A -> A -> list A -> Prop)
    (done h : list A) : Prop :=
  match h with
  | [] => True
  | ev :: post => P done ev post /\ all_splits P (done ++ [ev])%list post
  end.

(* ================================================================== *)
(** ** Concrete collaborators and requests *)
(* ================================================================== *)

Module Scenario.

(** Collaborators that all answer: the token belongs to [a@b.com],
    who has a pregenerated wallet and a key share on file. *)
Definition cooperative : World :=
  fun X _ c =>
    match c in Call X return Exn + X with
    | simulateVerifyToken _ => inr (Some {| user_email := "a@b.com" |})
    | req_json => inr {| rb_email := Some "a@b.com" |}
    | new_CapsuleServer _ _ => inr tt
    | importSession _ => inr tt
    | hasPregenWallet _ => inr true
    | setUserShare _ => inr tt
    | capsule_wallets => inr ["wallet-1"]
    | capsule_signMessage _ _ => inr (Some "aabb00")
    | getKeyShareInDB _ => inr (Some "ciphertext")
    | decrypt _ => inr "share"
    | new_JsonRpcProvider _ => inr tt
    | new_CapsuleEthersSigner => inr tt
    | signer_getAddress => inr "0xabc"
    | signer_signMessage _ => inr "0xsig"
    | getTransactionCount _ => inr 7
    | getFeeData => inr (Some 1000000000)
    | signer_signTransaction _ => inr "0xsignedtx"
    | createCapsuleAccount => inr tt
    | createCapsuleViemClient _ _ => inr tt
    | new_WalletClientSigner _ => inr tt
    | createModularAccountAlchemyClient _ _ _ => inr tt
    | sendUserOperation _ => inr "0xuserophash"
    | new_CapsuleProtoSigner _ => inr tt
    | connectWithSigner _ => inr tt
    | protoSigner_address => inr "cosmos1abc"
    | stargate_sign _ _ _ _ => inr "txraw"
    end.

(** As [cooperative], but the client asks for somebody else's wallet. *)
Definition other_email : World :=
  fun X h c =>
    match c in Call X return Exn + X with
    | req_json => inr {| rb_email := Some "mallory@b.com" |}
    | c' => cooperative _ h c'
    end.

(** As [cooperative], but the user has no pregenerated wallet. *)
Definition no_wallet : World :=
  fun X h c =>
    match c in Call X return Exn + X with
    | hasPregenWallet _ => inr false
    | c' => cooperative _ h c'
    end.

(** As [cooperative], but no key share is on file. *)
Definition no_key_share : World :=
  fun X h c =>
    match c in Call X return Exn + X with
    | getKeyShareInDB _ => inr None
    | c' => cooperative _ h c'
    end.

(** As [cooperative], but the identity service cannot be reached. *)
Definition identity_service_down : World :=
  fun X h c =>
    match c in Call X return Exn + X with
    | hasPregenWallet _ => inl "ECONNRESET"
    | importSession _ => inl "ECONNRESET"
    | c' => cooperative _ h c'
    end.

Definition encodeFunctionData (functionName : string) (args : list Z)
  : Exn + string :=
  match args with
  | [x] => inr (functionName ++ "(" ++ hex_of_byte x ++ ")")
  | _ => inl "AbiEncodingLengthMismatchError"
  end.

Definition env_all : Env :=
  fun name =>
    if String.eqb name "CAPSULE_API_KEY" then Some "capsule-key"
    else if String.eqb name "ALCHEMY_API_KEY" then Some "alchemy-key"
    else if String.eqb name "ALCHEMY_GAS_POLICY_ID" then Some "policy-1"
    else None.

Definition env_empty : Env := fun _ => None.

Definition bearer : DenoRequest := {| authorization := Some "Bearer token-1" |}.
Definition anonymous : DenoRequest := {| authorization := None |}.

Definition with_session : SessionBody :=
  {| body_email := Some "a@b.com"; body_session := Some "abc" |}.
Definition without_session : SessionBody :=
  {| body_email := Some "a@b.com"; body_session := None |}.

End Scenario.

(* ================================================================== *)
(** ** Further observations and concrete cases *)
(* ================================================================== *)

(** The 256 code units of the string model. *)
Definition all_ascii : list ascii := map ascii_of_nat (seq 0 256).

(** The replacement [adjustV] writes for a signature that ends with the
    characters [a] and [b], when it writes one. *)
Definition adjusted_tail (a b : ascii) : option string :=
  match Js.parseInt16 (String a (String b "")) with
  | Some v =>
      if v <? 27 then Some (Js.padStart2 (Js.toString16 (v + 27))) else None
  | None => None
  end.

(** The replacement, when there is one, has two characters and reads
    as one byte between 12 and 53. *)
Definition adjusted_tail_ok (a b : ascii) : bool :=
  match adjusted_tail a b with
  | Some t =>
      (String.length t =? 2)%nat &&
      match bytes_of_hex t with
      | Some [v] => (12 <=? v) && (v <=? 53)
      | _ => false
      end
  | None => true
  end.

(** The text before the first space ([s.split(" ")[0]]). *)
Fixpoint first_segment (s : string) : string :=
  match s with
  | EmptyString => EmptyString
  | String c r =>
      if Ascii.eqb c " " then EmptyString else String c (first_segment r)
  end.

Fixpoint has_space (s : string) : bool :=
  match s with
  | EmptyString => false
  | String c r => Ascii.eqb c " " || has_space r
  end.

(** The entry is a call that returned. *)
Definition returned (ev : Event) : bool :=
  match ev with
  | Ev _ (inr _) => true
  | _ => false
  end.

(** The entry asks a collaborator for a signature. *)
Definition is_signing (ev : Event) : bool :=
  match ev with
  | Ev (signer_signMessage _) _ | Ev (signer_signTransaction _) _
  | Ev (stargate_sign _ _ _ _) _ | Ev (sendUserOperation _) _
  | Ev (capsule_signMessage _ _) _ => true
  | _ => false
  end.

Definition share_installed (ev : Event) : bool :=
  is_setUserShare ev && returned ev.

Definition session_imported (ev : Event) : bool :=
  match ev with Ev (importSession _) (inr _) => true | _ => false end.

Definition is_token_check (ev : Event) : bool :=
  match ev with Ev (simulateVerifyToken _) _ => true | _ => false end.

Definition is_body_read (ev : Event) : bool :=
  match ev with Ev req_json _ => true | _ => false end.

(** The first error of a list of results, as a [map] that throws
    meets it. *)
Fixpoint first_error {A} (rs : list (Exn + A)) : option Exn :=
  match rs with
  | [] => None
  | inl e :: _ => Some e
  | inr _ :: r => first_error r
  end.

Definition alchemy_client_ready (ev : Event) : bool :=
  match ev with
  | Ev (createModularAccountAlchemyClient _ _ _) (inr _) => true
  | _ => false
  end.


(** The token verification answered that the token is not valid. *)
Definition token_rejected (ev : Event) : bool :=
  match ev with
  | Ev c r =>
      match c in Call X return Exn + X -> bool with
      | simulateVerifyToken _ =>
          fun r => match r with inr None => true | _ => false end
      | _ => fun _ => false
      end r
  | Console_error _ _ => false
  end.

Definition is_sendUserOperation (ev : Event) : bool :=
  match ev with Ev (sendUserOperation _) _ => true | _ => false end.




(** The email a wallet check or a key-share lookup was made for. *)
Definition queried_email (ev : Event) : option string :=
  match ev with
  | Ev (hasPregenWallet e) _ | Ev (getKeyShareInDB e) _ => Some e
  | _ => None
  end.

(** A share the key-share store returned. *)
Definition stored_share (ev : Event) : option string :=
  match key_share_answer ev with
  | Some (Some share) => Some share
  | _ => None
  end.

Definition decrypt_input (ev : Event) : option string :=
  match ev with Ev (decrypt k) _ => Some k | _ => None end.

Definition decrypt_output (ev : Event) : option string :=
  match ev with
  | Ev c r =>
      match c in Call X return Exn + X -> option string with
      | decrypt _ => fun r => match r with inr d => Some d | inl _ => None end
      | _ => fun _ => None
      end r
  | Console_error _ _ => None
  end.

Definition installed_share (ev : Event) : option string :=
  match ev with Ev (setUserShare d) _ => Some d | _ => None end.

Definition client_key (ev : Event) : option string :=
  match ev with Ev (new_CapsuleServer _ k) _ => Some k | _ => None end.

Definition imported_session (ev : Event) : option string :=
  match ev with Ev (importSession s) _ => Some s | _ => None end.

Module Cases.

(** As [Scenario.cooperative], but the token is not valid. *)
Definition invalid_token : World :=
  fun X h c =>
    match c in Call X return Exn + X with
    | simulateVerifyToken _ => inr None
    | c' => Scenario.cooperative _ h c'
    end.

(** As [Scenario.cooperative], but the client has no wallet loaded. *)
Definition no_wallets : World :=
  fun X h c =>
    match c in Call X return Exn + X with
    | capsule_wallets => inr []
    | c' => Scenario.cooperative _ h c'
    end.

(** An encoder that does not know how to encode the argument 3. *)
Definition encoder_failing_at_3 (functionName : string) (args : list Z)
  : Exn + string :=
  match args with
  | [3] => inl "AbiEncodingError"
  | _ => Scenario.encodeFunctionData functionName args
  end.

Definition env_capsule_only : Env :=
  fun name =>
    if String.eqb name "CAPSULE_API_KEY" then Some "capsule-key" else None.


Definition empty_session : SessionBody :=
  {| body_email := Some "a@b.com"; body_session := Some "" |}.

Definition other_email_body : SessionBody :=
  {| body_email := Some "zoe@b.com"; body_session := Some "abc" |}.

Definition basic_auth : DenoRequest := {| authorization := Some "Basic abc" |}.

End Cases.

(* ================================================================== *)
(** ** Sanity checks of the model on concrete inputs *)
(* ================================================================== *)

Example adjustV_00 : adjustV "aabb00" = "aabb1b". Proof. reflexivity. Qed.
Example adjustV_01 : adjustV "aabb01" = "aabb1c". Proof. reflexivity. Qed.
Example adjustV_1b : adjustV "aabb1b" = "aabb1b". Proof. reflexivity. Qed.
Example adjustV_02 : adjustV "aabb02" = "aabb1d". Proof. reflexivity. Qed.
Example adjustV_1a : adjustV "aabb1a" = "aabb35". Proof. reflexivity. Qed.
Example adjustV_ff : adjustV "aabbFF" = "aabbFF". Proof. reflexivity. Qed.
Example adjustV_nan : adjustV "aabbzz" = "aabbzz". Proof. reflexivity. Qed.
Example adjustV_empty : adjustV "" = "". Proof. reflexivity. Qed.
Example adjustV_short : adjustV "5" = "20". Proof. reflexivity. Qed.
Example adjustV_neg : adjustV "a-f" = "a0c". Proof. reflexivity. Qed.
Example toString16_255 : Js.toString16 255 = "ff". Proof. reflexivity. Qed.
Example toString16_4096 : Js.toString16 4096 = "1000". Proof. reflexivity. Qed.
Example toString16_0 : Js.toString16 0 = "0". Proof. reflexivity. Qed.
Example toString16_neg : Js.toString16 (-26) = "-1a". Proof. reflexivity. Qed.
Example parseInt16_0x : Js.parseInt16 "0x" = None. Proof. reflexivity. Qed.
Example parseInt16_ws : Js.parseInt16 " 7" = Some 7. Proof. reflexivity. Qed.
Example parseInt16_0x1f : Js.parseInt16 "0x1fz" = Some 31. Proof. reflexivity. Qed.
Example split_bearer : split_space "Bearer token-1" = ["Bearer"; "token-1"].
Proof. reflexivity. Qed.

Example ethers_pregen_no_wallet :
  signWithEthers Scenario.no_wallet Scenario.env_all Scenario.bearer =
  ([Ev (simulateVerifyToken (Some "token-1"))
       (inr (Some {| user_email := "a@b.com" |}));
    Ev req_json (inr {| rb_email := Some "a@b.com" |});
    Ev (new_CapsuleServer "BETA" "capsule-key") (inr tt);
    Ev (hasPregenWallet "a@b.com") (inr false)],
   Sent (text_response 400 "Wallet does not exist")).
Proof. reflexivity. Qed.

Example cosmjs_pregen_success :
  signWithCosmJS Scenario.cooperative Scenario.env_all Scenario.bearer =
  ([Ev (simulateVerifyToken (Some "token-1"))
       (inr (Some {| user_email := "a@b.com" |}));
    Ev req_json (inr {| rb_email := Some "a@b.com" |});
    Ev (new_CapsuleServer "BETA" "capsule-key") (inr tt);
    Ev (hasPregenWallet "a@b.com") (inr true);
    Ev (getKeyShareInDB "a@b.com") (inr (Some "ciphertext"));
    Ev (decrypt "ciphertext") (inr "share");
    Ev (setUserShare "share") (inr tt);
    Ev (new_CapsuleProtoSigner "cosmos") (inr tt);
    Ev (connectWithSigner "https://rpc-t.cosmos.nodestake.top") (inr tt);
    Ev protoSigner_address (inr "cosmos1abc");
    Ev (stargate_sign "cosmos1abc"
          [{| typeUrl := "/cosmos.bank.v1beta1.MsgSend";
              value := {| fromAddress := "cosmos1abc";
                          toAddress := "cosmos1...";
                          msg_amount := [{| denom := "uatom"; amount := "1000" |}] |} |}]
          {| fee_amount := [{| denom := "uatom"; amount := "500" |}];
             gas := "200000" |}
          "Signed with Capsule")
       (inr "txraw")],
   Sent (json_response 200 [("route", "signWithCosmJS"); ("signResult", "txraw")])).
Proof. reflexivity. Qed.

Example ethers_session_success_status :
  status_of (ethersSessionSignHandler Scenario.cooperative Scenario.env_all
               Scenario.with_session) = Some 200.
Proof. reflexivity. Qed.

Example malformed_header_401 :
  status_of (signWithEthers Scenario.cooperative Scenario.env_all
               {| authorization := Some "Basic abc" |}) = Some 401.
Proof. reflexivity. Qed.

Example customSignMessage_example :
  customSignMessage Scenario.cooperative (fun m => m) (fun m => m) "hello" [] =
  ([Ev capsule_wallets (inr ["wallet-1"]);
    Ev (capsule_signMessage "wallet-1" "hello") (inr (Some "aabb00"))],
   inr "0xaabb1b").
Proof. reflexivity. Qed.

(* ================================================================== *)
(** ** Strings: slices of a concatenation *)
(* ================================================================== *)

Section StringFacts.

Lemma string_length_app (p q : string) :
  String.length (p ++ q) = (String.length p + String.length q)%nat.
Proof. induction p as [|c p IH]; simpl; [reflexivity | now rewrite IH]. Qed.

Lemma append_nil_r (p : string) : p ++ "" = p.
Proof. induction p as [|c p IH]; simpl; [reflexivity | now rewrite IH]. Qed.

Lemma append_assoc (p q r : string) : (p ++ q) ++ r = p ++ (q ++ r).
Proof. induction p as [|c p IH]; simpl; [reflexivity | now rewrite IH]. Qed.

Lemma substring_all (q : string) : substring 0 (String.length q) q = q.
Proof. induction q as [|c q IH]; simpl; [reflexivity | now rewrite IH]. Qed.

Lemma substring_prefix (p q : string) :
  substring 0 (String.length p) (p ++ q) = p.
Proof.
  induction p as [|c p IH]; simpl.
  - now destruct q.
  - now rewrite IH.
Qed.

Lemma substring_suffix (p q : string) :
  substring (String.length p) (String.length q) (p ++ q) = q.
Proof.
  induction p as [|c p IH]; simpl.
  - apply substring_all.
  - exact IH.
Qed.

Lemma slice_last2_app (p : string) (a b : ascii) :
  Js.slice_last2 (p ++ String a (String b "")) = String a (String b "").
Proof.
  unfold Js.slice_last2. rewrite string_length_app. simpl String.length.
  replace (String.length p + 2 - 2)%nat with (String.length p) by lia.
  apply (substring_suffix p (String a (String b ""))).
Qed.

Lemma slice_drop2_app (p : string) (a b : ascii) :
  Js.slice_drop2 (p ++ String a (String b "")) = p.
Proof.
  unfold Js.slice_drop2. rewrite string_length_app. simpl String.length.
  replace (String.length p + 2 - 2)%nat with (String.length p) by lia.
  apply substring_prefix.
Qed.

End StringFacts.

(* ================================================================== *)
(** ** Hexadecimal digits and [parseInt] on one byte *)
(* ================================================================== *)

Section HexFacts.

(** A hexadecimal digit is neither white space, nor a sign, nor the
    letter of the [0x] prefix. *)
Lemma hex_digit_plain (c : ascii) (d : Z) :
  Js.hex_digit_value c = Some d ->
  Js.is_whitespace c = false /\
  Ascii.eqb c "-" = false /\ Ascii.eqb c "+" = false /\
  Ascii.eqb c "x" = false /\ Ascii.eqb c "X" = false /\
  0 <= d < 16.
Proof.
  destruct c as [[] [] [] [] [] [] [] []]; vm_compute; intros H;
    try discriminate H; injection H as <-;
    repeat split; congruence.
Qed.

Lemma parseInt16_byte (c1 c2 : ascii) (h l : Z) :
  Js.hex_digit_value c1 = Some h ->
  Js.hex_digit_value c2 = Some l ->
  Js.parseInt16 (String c1 (String c2 "")) = Some (16 * h + l).
Proof.
  intros H1 H2.
  destruct (hex_digit_plain _ _ H1) as (W1 & M1 & P1 & _ & _ & R1).
  destruct (hex_digit_plain _ _ H2) as (_ & _ & _ & X2 & X2' & R2).
  unfold Js.parseInt16. simpl Js.trim_start. rewrite W1, M1, P1.
  rewrite X2, X2'. rewrite Bool.andb_false_r.
  simpl Js.digits_prefix. rewrite H1, H2.
  unfold Js.digits_value.
  change (fold_left (fun acc d => 16 * acc + d) [h; l] 0)
    with (16 * (16 * 0 + h) + l).
  f_equal. lia.
Qed.

Lemma hex_char_value (d : Z) :
  0 <= d < 16 -> Js.hex_digit_value (Js.hex_char d) = Some d.
Proof.
  intros Hd.
  assert (d = 0 \/ d = 1 \/ d = 2 \/ d = 3 \/ d = 4 \/ d = 5 \/ d = 6 \/ d = 7 \/
          d = 8 \/ d = 9 \/ d = 10 \/ d = 11 \/ d = 12 \/ d = 13 \/ d = 14 \/ d = 15)
    as E by lia.
  repeat (destruct E as [-> | E]; [reflexivity |]). subst d. reflexivity.
Qed.

Lemma hex_of_byte_reads (v : Z) :
  0 <= v < 256 -> bytes_of_hex (hex_of_byte v) = Some [v].
Proof.
  intros Hv.
  assert (Hq : 0 <= v / 16 < 16)
    by (split; [apply Z.div_pos | apply Z.div_lt_upper_bound]; lia).
  assert (Hr : 0 <= v mod 16 < 16) by (apply Z.mod_pos_bound; lia).
  unfold hex_of_byte. cbn [bytes_of_hex].
  rewrite (hex_char_value _ Hq), (hex_char_value _ Hr). f_equal. f_equal.
  pose proof (Z.div_mod v 16). lia.
Qed.

(** The digits [hex_digits] puts in front of [acc] read back as [n],
    provided the fuel covers [n]. *)
Lemma hex_digits_read (fuel : nat) :
  forall (n : Z) (acc : string),
    0 <= n < 16 ^ Z.of_nat fuel ->
    exists k, 0 <= k /\
      forall a, fold_left (fun x d => 16 * x + d)
                  (Js.digits_prefix (Js.hex_digits fuel n acc)) a
                = fold_left (fun x d => 16 * x + d)
                    (Js.digits_prefix acc) (a * 16 ^ k + n).
Proof.
  induction fuel as [|fuel IH]; intros n acc Hn.
  - exists 0. split; [lia |]. intros a. cbn [Js.hex_digits].
    change (16 ^ Z.of_nat 0) with 1 in Hn.
    replace (a * 16 ^ 0 + n) with a by lia. reflexivity.
  - rewrite Nat2Z.inj_succ, Z.pow_succ_r in Hn by lia.
    pose proof (Z.div_mod n 16 ltac:(lia)) as Hdm.
    pose proof (Z.mod_pos_bound n 16 ltac:(lia)) as Hm.
    cbn [Js.hex_digits].
    destruct (n / 16 =? 0) eqn:Hq.
    + apply Z.eqb_eq in Hq. exists 1. split; [lia |]. intros a.
      cbn [Js.digits_prefix]. rewrite (hex_char_value _ Hm). cbn [fold_left].
      f_equal. lia.
    + apply Z.eqb_neq in Hq.
      assert (Hn' : 0 <= n / 16 < 16 ^ Z.of_nat fuel).
      { split; [apply Z.div_pos; lia | apply Z.div_lt_upper_bound; lia]. }
      destruct (IH (n / 16) (String (Js.hex_char (n mod 16)) acc) Hn')
        as (k & Hk & Hread).
      exists (Z.succ k). split; [lia |]. intros a. rewrite Hread.
      cbn [Js.digits_prefix]. rewrite (hex_char_value _ Hm). cbn [fold_left].
      f_equal. rewrite Z.pow_succ_r by lia. lia.
Qed.

(** [toString16] has fuel for every digit: reading its digits back
    gives the number. *)
Lemma toString16_read (n : Z) :
  0 <= n -> Js.digits_value (Js.digits_prefix (Js.toString16 n)) = n.
Proof.
  intros Hn. unfold Js.toString16, Js.digits_value.
  destruct (n <? 0) eqn:Neg; [apply Z.ltb_lt in Neg; lia |].
  assert (Hfuel : 0 <= n < 16 ^ Z.of_nat (S (Z.to_nat (Z.log2 n)))).
  { split; [exact Hn |].
    rewrite Nat2Z.inj_succ, Z2Nat.id by apply Z.log2_nonneg.
    destruct (Z.eq_dec n 0) as [-> | Hnz].
    - reflexivity.
    - pose proof (Z.log2_spec n ltac:(lia)) as [_ Hlt].
      apply Z.lt_le_trans with (1 := Hlt).
      apply Z.pow_le_mono_l. pose proof (Z.log2_nonneg n). lia. }
  destruct (hex_digits_read _ n "" Hfuel) as (k & _ & Hread).
  rewrite Hread. cbn. lia.
Qed.

(** [(lastByte + 27).toString(16).padStart(2, "0")] is the two-digit
    text of [lastByte + 27] for every [lastByte] from [-15] (what the
    slice [-f] parses to) up to 26. *)
Lemma adjustedV_text (b : Z) :
  -15 <= b < 27 ->
  Js.padStart2 (Js.toString16 (b + 27)) = hex_of_byte (b + 27).
Proof.
  intros Hb.
  assert (exists k : nat, (k < 42)%nat /\ b = Z.of_nat k - 15) as (k & Hk & ->).
  { exists (Z.to_nat (b + 15)). split; lia. }
  do 42 (destruct k as [|k]; [reflexivity |]). lia.
Qed.

End HexFacts.

(* ================================================================== *)
(** ** The normalizer on the bytes of a signature *)
(* ================================================================== *)

Section Normalizer.

Lemma bytes_of_hex_cons_inv (c1 c2 : ascii) (r : string) (bs : list Z) :
  bytes_of_hex (String c1 (String c2 r)) = Some bs ->
  exists h l t,
    Js.hex_digit_value c1 = Some h /\ Js.hex_digit_value c2 = Some l /\
    bytes_of_hex r = Some t /\ bs = 16 * h + l :: t.
Proof.
  cbn [bytes_of_hex].
  destruct (Js.hex_digit_value c1) as [h|]; [|discriminate].
  destruct (Js.hex_digit_value c2) as [l|]; [|discriminate].
  destruct (bytes_of_hex r) as [t|]; [|discriminate].
  intros [= <-]. now exists h, l, t.
Qed.

Lemma bytes_of_hex_nil_inv (s : string) :
  bytes_of_hex s = Some [] -> s = "".
Proof.
  destruct s as [|c1 [|c2 r]]; [reflexivity | discriminate |].
  intros H. apply bytes_of_hex_cons_inv in H as (h & l & t & _ & _ & _ & [=]).
Qed.

Lemma bytes_of_hex_app (p q : string) (bs bs' : list Z) :
  bytes_of_hex p = Some bs ->
  bytes_of_hex q = Some bs' ->
  bytes_of_hex (p ++ q) = Some (bs ++ bs')%list.
Proof.
  revert p. induction bs as [|a bs IH]; intros p Hp Hq.
  - apply bytes_of_hex_nil_inv in Hp. now subst p.
  - destruct p as [|c1 [|c2 r]]; try discriminate Hp.
    apply bytes_of_hex_cons_inv in Hp as (h & l & t & H1 & H2 & Hr & [= -> ->]).
    change ((String c1 (String c2 r)) ++ q) with (String c1 (String c2 (r ++ q))).
    cbn [bytes_of_hex]. now rewrite H1, H2, (IH r Hr Hq).
Qed.

(** A signature of at least one byte is some text followed by the two
    digits of its last byte. *)
Lemma bytes_of_hex_snoc (s : string) (bs : list Z) (b : Z) :
  bytes_of_hex s = Some (bs ++ [b])%list ->
  exists p c1 c2 h l,
    s = p ++ String c1 (String c2 "") /\
    bytes_of_hex p = Some bs /\
    Js.hex_digit_value c1 = Some h /\ Js.hex_digit_value c2 = Some l /\
    b = 16 * h + l.
Proof.
  revert s. induction bs as [|a bs IH]; intros s H.
  - destruct s as [|c1 [|c2 r]]; try discriminate H.
    apply bytes_of_hex_cons_inv in H as (h & l & t & H1 & H2 & Hr & [= -> <-]).
    apply bytes_of_hex_nil_inv in Hr. subst r.
    now exists "", c1, c2, h, l.
  - destruct s as [|c1 [|c2 r]]; try discriminate H.
    apply bytes_of_hex_cons_inv in H as (h & l & t & H1 & H2 & Hr & [= -> <-]).
    destruct (IH r Hr) as (p & d1 & d2 & h' & l' & -> & Hp & Hd1 & Hd2 & ->).
    exists (String c1 (String c2 p)), d1, d2, h', l'.
    repeat split; try assumption.
    cbn [bytes_of_hex]. now rewrite H1, H2, Hp.
Qed.

Lemma bytes_of_hex_range (s : string) (bs : list Z) :
  bytes_of_hex s = Some bs -> Forall (fun b => 0 <= b < 256) bs.
Proof.
  revert s. induction bs as [|a bs IH]; intros s H; constructor.
  - destruct s as [|c1 [|c2 r]]; try discriminate H.
    apply bytes_of_hex_cons_inv in H as (h & l & t & H1 & H2 & _ & [= -> _]).
    apply hex_digit_plain in H1 as (_ & _ & _ & _ & _ & R1).
    apply hex_digit_plain in H2 as (_ & _ & _ & _ & _ & R2).
    change (0 <= 16 * h + l < 256). lia.
  - destruct s as [|c1 [|c2 r]]; try discriminate H.
    apply bytes_of_hex_cons_inv in H as (h & l & t & _ & _ & Hr & [= _ <-]).
    exact (IH r Hr).
Qed.

(** The normalizer on a text that ends with two given characters. *)
Lemma adjustV_app2 (p : string) (a b : ascii) :
  adjustV (p ++ String a (String b "")) =
  match Js.parseInt16 (String a (String b "")) with
  | Some v =>
      if v <? 27 then p ++ Js.padStart2 (Js.toString16 (v + 27))
      else p ++ String a (String b "")
  | None => p ++ String a (String b "")
  end.
Proof.
  unfold adjustV. rewrite slice_last2_app, slice_drop2_app. reflexivity.
Qed.

Lemma final_byte_snoc (s : string) (bs : list Z) (b : Z) :
  bytes_of_hex s = Some (bs ++ [b])%list -> final_byte s = Some b.
Proof.
  intros H. unfold final_byte. rewrite H, map_app. apply last_last.
Qed.

(** The normalizer replaces the last byte [b] by [adjust_byte b] and
    nothing else; when [b] is at least 27 the text itself is kept. *)
Lemma adjustV_bytes (s : string) (bs : list Z) (b : Z) :
  bytes_of_hex s = Some (bs ++ [b])%list ->
  bytes_of_hex (adjustV s) = Some (bs ++ [adjust_byte b])%list /\
  String.length (adjustV s) = String.length s /\
  (27 <= b -> adjustV s = s) /\
  0 <= b < 256.
Proof.
  intros H.
  destruct (bytes_of_hex_snoc _ _ _ H) as (p & c1 & c2 & h & l & -> & Hp & H1 & H2 & ->).
  pose proof (hex_digit_plain _ _ H1) as (_ & _ & _ & _ & _ & Rh).
  pose proof (hex_digit_plain _ _ H2) as (_ & _ & _ & _ & _ & Rl).
  rewrite adjustV_app2, (parseInt16_byte _ _ _ _ H1 H2).
  unfold adjust_byte.
  destruct (16 * h + l <? 27) eqn:Lt.
  - apply Z.ltb_lt in Lt.
    rewrite adjustedV_text by lia.
    repeat split; try lia.
    + apply bytes_of_hex_app; [exact Hp | apply hex_of_byte_reads; lia].
    + now rewrite !string_length_app.
  - apply Z.ltb_ge in Lt. repeat split; try lia. exact H.
Qed.

(** On signatures the normalizer is idempotent. *)
Lemma adjustV_idempotent (s : string) (bs : list Z) :
  bytes_of_hex s = Some bs -> adjustV (adjustV s) = adjustV s.
Proof.
  intros H. destruct bs as [|b bs _] using rev_ind.
  - apply bytes_of_hex_nil_inv in H. now subst s.
  - destruct (adjustV_bytes _ _ _ H) as (H' & _ & _ & Rb).
    destruct (adjustV_bytes _ _ _ H') as (_ & _ & Keep & _).
    apply Keep. unfold adjust_byte. destruct (b <? 27) eqn:Lt; [lia |].
    now apply Z.ltb_ge in Lt.
Qed.

End Normalizer.

(* ================================================================== *)
(** ** Properties of the signature normalizer *)
(* ================================================================== *)

(** C1, as stated, fails: the signature [aabb02] ends with the recovery
    byte 2, which is below 27, and the normalizer turns it into
    2 + 27 = 29, which is neither 27 nor 28. *)
Lemma C1_final_byte_29 :
  final_byte "aabb02" = Some 2 /\
  final_byte (adjustV "aabb02") = Some 29 /\
  ~ (final_byte (adjustV "aabb02") = Some 27 \/
     final_byte (adjustV "aabb02") = Some 28).
Proof.
  repeat split; try reflexivity.
  intros [H | H]; vm_compute in H; discriminate H.
Qed.

(** C1, amended: for every signature and every value [b] of its final
    byte, the normalizer returns a signature (it has no failure path)
    with the same bytes but the last, which is [b + 27] when [b < 27]
    and [b] otherwise; the final byte of the result is at least 27, and
    it lies in {27, 28} exactly when [b] is 0, 1, 27 or 28. *)
Theorem C1_adjustV_final_byte (s : string) (bs : list Z) (b : Z) :
  bytes_of_hex s = Some (bs ++ [b])%list ->
  bytes_of_hex (adjustV s) = Some (bs ++ [adjust_byte b])%list /\
  final_byte (adjustV s) = Some (adjust_byte b) /\
  (b < 27 -> adjust_byte b = b + 27) /\
  (27 <= b -> adjust_byte b = b) /\
  27 <= adjust_byte b /\
  ((adjust_byte b = 27 \/ adjust_byte b = 28) <->
   (b = 0 \/ b = 1 \/ b = 27 \/ b = 28)).
Proof.
  intros H.
  destruct (adjustV_bytes _ _ _ H) as (H' & _ & _ & Rb).
  split; [exact H' |].
  split; [exact (final_byte_snoc _ _ _ H') |].
  unfold adjust_byte.
  destruct (b <? 27) eqn:Lt;
    [apply Z.ltb_lt in Lt | apply Z.ltb_ge in Lt]; repeat split; lia.
Qed.

Lemma C1_adjustV_final_byte_witness :
  bytes_of_hex "aabb1a" = Some ([170; 187] ++ [26])%list /\
  bytes_of_hex (adjustV "aabb1a") = Some ([170; 187] ++ [adjust_byte 26])%list.
Proof.
  split; [reflexivity |].
  exact (proj1 (C1_adjustV_final_byte "aabb1a" [170; 187] 26 eq_refl)).
Defined.

(** C2: whatever precedes the last byte, the normalizer maps a final
    [00] to [1b] and a final [01] to [1c], returns a signature that
    ends with [1b] or [1c] unchanged, and applying it twice to such a
    signature gives what applying it once gives. *)
Theorem C2_adjustV_low_and_valid (p : string) :
  adjustV (p ++ "00") = p ++ "1b" /\
  adjustV (p ++ "01") = p ++ "1c" /\
  adjustV (p ++ "1b") = p ++ "1b" /\
  adjustV (p ++ "1c") = p ++ "1c" /\
  adjustV (adjustV (p ++ "1b")) = adjustV (p ++ "1b") /\
  adjustV (adjustV (p ++ "1c")) = adjustV (p ++ "1c").
Proof.
  assert (H00 : adjustV (p ++ "00") = p ++ "1b") by (rewrite adjustV_app2; reflexivity).
  assert (H01 : adjustV (p ++ "01") = p ++ "1c") by (rewrite adjustV_app2; reflexivity).
  assert (H1b : adjustV (p ++ "1b") = p ++ "1b") by (rewrite adjustV_app2; reflexivity).
  assert (H1c : adjustV (p ++ "1c") = p ++ "1c") by (rewrite adjustV_app2; reflexivity).
  repeat split; try assumption.
  - now rewrite H1b.
  - now rewrite H1c.
Qed.

(** C10: the normalizer changes at most the final byte.  The result is
    a signature of the same length, in bytes and in characters; every
    byte but the last is the byte of the input at the same position;
    and when the final byte is 27 or more the signature text is
    returned as it is. *)
Theorem C10_adjustV_frame (s : string) (bs : list Z) :
  bytes_of_hex s = Some bs ->
  exists bs',
    bytes_of_hex (adjustV s) = Some bs' /\
    List.length bs' = List.length bs /\
    (forall i, (S i < List.length bs)%nat -> nth_error bs' i = nth_error bs i) /\
    removelast bs' = removelast bs /\
    String.length (adjustV s) = String.length s /\
    (forall b, final_byte s = Some b -> 27 <= b -> adjustV s = s).
Proof.
  intros H. destruct bs as [|b bs _] using rev_ind.
  - apply bytes_of_hex_nil_inv in H. subst s. exists []. repeat split.
  - destruct (adjustV_bytes _ _ _ H) as (H' & Len & Keep & _).
    exists (bs ++ [adjust_byte b])%list. split; [exact H' |].
    split; [now rewrite !List.length_app |].
    split.
    { intros i Hi. rewrite List.length_app in Hi. simpl in Hi.
      rewrite !nth_error_app1 by lia. reflexivity. }
    split; [now rewrite !removelast_last |].
    split; [exact Len |].
    intros b' Hb' Hge. rewrite (final_byte_snoc _ _ _ H) in Hb'.
    injection Hb' as <-. exact (Keep Hge).
Qed.

Lemma C10_adjustV_frame_witness :
  bytes_of_hex "aabb01" = Some [170; 187; 1] /\
  exists bs',
    bytes_of_hex (adjustV "aabb01") = Some bs' /\
    List.length bs' = 3%nat.
Proof.
  split; [reflexivity |].
  destruct (C10_adjustV_frame "aabb01" [170; 187; 1] eq_refl)
    as (bs' & H & L & _).
  exists bs'. split; [exact H | exact L].
Defined.

(* ================================================================== *)
(** ** Rules for postconditions *)
(* ================================================================== *)

Section Rules.

Variable world : World.

Lemma wp_ret {A} (a : A) h (Q : History * (Exn + A) -> Prop) :
  Q (h, inr a) -> wp (ret a) h Q.
Proof. exact (fun H => H). Qed.

Lemma wp_throw {A} (e : Exn) h (Q : History * (Exn + A) -> Prop) :
  Q (h, inl e) -> wp (throw e) h Q.
Proof. exact (fun H => H). Qed.

Lemma wp_lift {A} (r : Exn + A) h (Q : History * (Exn + A) -> Prop) :
  Q (h, r) -> wp (lift r) h Q.
Proof. exact (fun H => H). Qed.

(** Whatever the collaborator answers, the call is logged with that
    answer. *)
Lemma wp_call {X} (c : Call X) h (Q : History * (Exn + X) -> Prop) :
  (forall r, Q ((h ++ [Ev c r])%list, r)) -> wp (call world c) h Q.
Proof. intros H. apply H. Qed.

Lemma wp_bind {A B} (m : M A) (k : A -> M B) h
    (Q : History * (Exn + B) -> Prop) :
  wp m h (fun hr => match snd hr with
                    | inr a => wp (k a) (fst hr) Q
                    | inl e => Q (fst hr, inl e)
                    end) ->
  wp (bind m k) h Q.
Proof. unfold wp, bind. destruct (m h) as [h' [e|a]]; auto. Qed.

Lemma async_handler_wp (block : M Response) (P : Run -> Prop) :
  wp block [] (fun hr => P (match hr with
                            | (h, inr resp) => (h, Sent resp)
                            | (h, inl e) => (h, Rejected e)
                            end)) ->
  P (async_handler block).
Proof. exact (fun H => H). Qed.

Lemma express_try_catch_wp (label : string) (block : M Response)
    (P : Run -> Prop) :
  wp block [] (fun hr => P (match hr with
                            | (h, inr resp) => (h, Sent resp)
                            | (h, inl e) =>
                                ((h ++ [Console_error label e])%list, Next e)
                            end)) ->
  P (express_try_catch label block).
Proof. exact (fun H => H). Qed.

End Rules.

Lemma all_splits_spec {A} (P : list A -> A -> list A -> Prop) (h done : list A) :
  all_splits P done h ->
  forall pre ev post, h = (pre ++ ev :: post)%list -> P (done ++ pre)%list ev post.
Proof.
  revert done. induction h as [|x h IH]; intros done H pre ev post E.
  - now destruct pre.
  - destruct H as [Hx Hr]. destruct pre as [|y pre]; injection E as -> ->.
    + now rewrite app_nil_r.
    + specialize (IH _ Hr pre ev post eq_refl).
      now rewrite <- app_assoc in IH.
Qed.

Lemma by_splits {A} (P : list A -> A -> list A -> Prop) (h : list A) :
  all_splits P [] h ->
  forall pre ev post, h = (pre ++ ev :: post)%list -> P pre ev post.
Proof. intros H pre ev post E. exact (all_splits_spec P h [] H pre ev post E). Qed.

(** One step of a handler: bind, call (with either answer), return,
    or a case distinction of the source. *)
Ltac wp_step :=
  lazymatch goal with
  | |- wp (bind _ _) _ _ => apply wp_bind
  | |- wp (call _ _) _ _ => apply wp_call; intros [?|?]; cbn [fst snd app]
  | |- wp (ret _) _ _ => apply wp_ret; cbn [fst snd app]
  | |- wp (throw _) _ _ => apply wp_throw; cbn [fst snd app]
  | |- wp (lift ?r) _ _ => apply wp_lift; destruct r eqn:?; cbn [fst snd app]
  | |- wp (match ?x with _ => _ end) _ _ => destruct x eqn:?
  | |- wp (pregen_prologue _ _ _ _) _ _ => unfold pregen_prologue
  | |- wp (demoUserOperations _) _ _ => unfold demoUserOperations; cbn [mapM]
  | |- wp (alchemySessionSignHandler_try _ _ _ _) _ _ =>
      unfold alchemySessionSignHandler_try
  | |- wp (ethersSessionSignHandler_try _ _ _) _ _ =>
      unfold ethersSessionSignHandler_try
  end.

(** Run a handler symbolically: one goal per way the handler can end,
    with the log and the outcome of that way. *)
Ltac by_wp :=
  unfold signWithEthers, signWithCosmJS, alchemySessionSignHandler,
    ethersSessionSignHandler;
  lazymatch goal with
  | |- context [async_handler ?blk] =>
      pattern (async_handler blk);
      lazymatch goal with
      | |- ?P _ => refine (async_handler_wp blk P _)
      end
  | |- context [express_try_catch ?label ?blk] =>
      pattern (express_try_catch label blk);
      lazymatch goal with
      | |- ?P _ => refine (express_try_catch_wp label blk P _)
      end
  end;
  repeat wp_step;
  unfold trace, outcome, status_of; cbn [fst snd app].

(** A flag the source tested with [!flag] is known once the branch is. *)
Ltac settle_flags :=
  repeat match goal with
         | H : negb ?b = _ |- _ =>
             is_var b; destruct b; cbn in H; try discriminate H; clear H
         end.

(* ================================================================== *)
(** ** What every run of a handler looks like *)
(* ================================================================== *)

(** Runs of the pregenerated-wallet handlers. *)
Lemma pregen_run_facts world env req run :
  run = signWithEthers world env req \/ run = signWithCosmJS world env req ->
  all_splits (fun pre ev _ =>
                is_key_share_lookup ev = true ->
                existsb wallet_confirmed pre = true) [] (trace run) /\
  all_splits (fun _ ev post =>
                forall e, thrown_value ev = Some e ->
                          post = [] /\ outcome run = Rejected e) [] (trace run) /\
  (existsb wallet_denied (trace run) = true ->
   outcome run = Sent (text_response 400 "Wallet does not exist")) /\
  (existsb key_share_missing (trace run) = true ->
   outcome run = Sent (text_response 400 "Key share does not exist")) /\
  (count is_wallet_check (trace run) <= 1)%nat /\
  (count is_key_share_lookup (trace run) <= 1)%nat /\
  (count is_decrypt (trace run) <= 1)%nat /\
  (count is_setUserShare (trace run) <= 1)%nat /\
  existsb is_log (trace run) = false /\
  (forall e, outcome run <> Next e).
Proof.
  intros [-> | ->]; by_wp.
  all: settle_flags.
  all: unfold count; cbn.
  all: repeat match goal with
              | H : truthy _ = _ |- _ => rewrite H; clear H
              end.
  all: repeat split; intros; try discriminate; try congruence; try lia.
Qed.

(** Runs of the session handlers, [label] being the text the [catch]
    block passes to [console.error]. *)
Lemma express_run_facts world enc env req run label :
  (run = alchemySessionSignHandler world enc env req /\
   label = "Error in alchemySessionSignHandler:") \/
  (run = ethersSessionSignHandler world env req /\
   label = "Error in ethersSessionSignHandler:") ->
  all_splits (fun _ ev post =>
                forall e, thrown_value ev = Some e ->
                          post = [Console_error label e] /\
                          outcome run = Next e) [] (trace run) /\
  (forall e, outcome run = Next e ->
             exists h, trace run = (h ++ [Console_error label e])%list /\
                       existsb is_log h = false) /\
  (forall resp, outcome run = Sent resp ->
                existsb threw (trace run) = false /\
                existsb is_log (trace run) = false) /\
  (forall e, outcome run <> Rejected e).
Proof.
  intros [[-> ->] | [-> ->]]; by_wp.
  all: cbn.
  all: repeat split; intros; try discriminate; try congruence.
  all: match goal with
       | H : Next _ = Next _ |- exists h, ?t = _ /\ _ =>
           injection H as <-; exists (removelast t); split; reflexivity
       end.
Qed.

(** With a session, the three variables and collaborators that all
    answer, the account-abstraction handler reaches its 200. *)
Lemma alchemy_session_success world enc env req :
  truthy (body_session req) <> None ->
  truthy (env "CAPSULE_API_KEY") <> None ->
  truthy (env "ALCHEMY_API_KEY") <> None ->
  truthy (env "ALCHEMY_GAS_POLICY_ID") <> None ->
  (forall X h (c : Call X), exists x, world X h c = inr x) ->
  (forall x, In x [1; 2; 3; 4; 5] -> exists d, enc "changeX" [x] = inr d) ->
  status_of (alchemySessionSignHandler world enc env req) = Some 200.
Proof.
  intros Hs Hk Ha Hp Hw He.
  unfold alchemySessionSignHandler, alchemySessionSignHandler_try,
    express_try_catch, demoUserOperations.
  destruct (truthy (body_session req)); [| contradiction].
  destruct (truthy (env "CAPSULE_API_KEY")); [| contradiction].
  destruct (truthy (env "ALCHEMY_API_KEY")); [| contradiction].
  destruct (truthy (env "ALCHEMY_GAS_POLICY_ID")); [| contradiction].
  cbn [mapM]. unfold bind, call, lift, ret.
  repeat match goal with
         | |- context [world ?X ?h ?c] =>
             let x := fresh "x" in
             let E := fresh "E" in
             destruct (Hw X h c) as [x E]; rewrite E; clear E
         | |- context [enc "changeX" [?x]] =>
             let d := fresh "d" in
             let E := fresh "E" in
             destruct (He x) as [d E]; [simpl; tauto | rewrite E; clear E]
         end.
  reflexivity.
Qed.

(** What [customSignMessage] resolves to: the signature the SDK
    returned for the first wallet, normalized and prefixed. *)
Lemma customSignMessage_normalizes world hashMessage hexStringToBase64
    message h h' hash :
  customSignMessage world hashMessage hexStringToBase64 message h
  = (h', inr hash) ->
  exists walletId others signature,
    h' = (h ++ [Ev capsule_wallets (inr (walletId :: others));
                Ev (capsule_signMessage walletId
                      (hexStringToBase64 (hashMessage message)))
                   (inr (Some signature))])%list /\
    hash = "0x" ++ adjustV signature.
Proof.
  unfold customSignMessage, bind, call, throw, ret, hashOfSignature.
  destruct (world _ h capsule_wallets) as [e | [| walletId others]];
    try discriminate.
  destruct (world _ _ (capsule_signMessage _ _)) as [e | [signature |]];
    try discriminate.
  intros [= <- <-]. exists walletId, others, signature.
  split; [now rewrite <- app_assoc | reflexivity].
Qed.

(* ================================================================== *)
(** ** Properties of the handlers *)
(* ================================================================== *)

(** C3: when the body of the request has no [session] field, each of
    the two session handlers answers 400 and its log is empty: no
    Capsule client is constructed and [importSession] is not called,
    nor is anything else. *)
Theorem C3_missing_session_400 world enc env req :
  body_session req = None ->
  alchemySessionSignHandler world enc env req =
    ([], Sent (text_response 400
                 "Session is required. Ensure the client passes a valid session.")) /\
  ethersSessionSignHandler world env req =
    ([], Sent (text_response 400
                 "Provide both `email` and `session` in the request body.")) /\
  existsb (touches IdentityService)
    (trace (alchemySessionSignHandler world enc env req)) = false /\
  existsb (touches IdentityService)
    (trace (ethersSessionSignHandler world env req)) = false.
Proof.
  intros H.
  assert (A : alchemySessionSignHandler world enc env req =
    ([], Sent (text_response 400
                 "Session is required. Ensure the client passes a valid session."))).
  { unfold alchemySessionSignHandler, alchemySessionSignHandler_try,
      express_try_catch.
    now rewrite H. }
  assert (B : ethersSessionSignHandler world env req =
    ([], Sent (text_response 400
                 "Provide both `email` and `session` in the request body."))).
  { unfold ethersSessionSignHandler, ethersSessionSignHandler_try,
      express_try_catch.
    rewrite H. now destruct (truthy (body_email req)). }
  rewrite A, B. repeat split.
Qed.

Lemma C3_missing_session_400_witness :
  body_session Scenario.without_session = None /\
  status_of (alchemySessionSignHandler Scenario.cooperative
               Scenario.encodeFunctionData Scenario.env_all
               Scenario.without_session) = Some 400.
Proof.
  split; [reflexivity |].
  rewrite (proj1 (C3_missing_session_400 Scenario.cooperative
                    Scenario.encodeFunctionData Scenario.env_all
                    Scenario.without_session eq_refl)).
  reflexivity.
Defined.

(** C4: in a run of a pregenerated-wallet handler in which the token
    was verified as [user] and the body was read as [b], if the
    [email] of [b] is not the email of [user] then the handler answers
    403 and the log has no access to the key-share store. *)
Theorem C4_forbidden_before_key_store world env req run user b :
  run = signWithEthers world env req \/ run = signWithCosmJS world env req ->
  In user (collect verified_subject (trace run)) ->
  In b (collect parsed_body (trace run)) ->
  rb_email b <> Some (user_email user) ->
  outcome run = Sent (text_response 403 "Forbidden") /\
  existsb (touches KeyShareStore) (trace run) = false.
Proof.
  intros Hrun. revert user b.
  destruct Hrun as [-> | ->]; by_wp.
  all: cbn; intros user b' Hu Hb Hne.
  all: try (destruct Hu as [<- | []]).
  all: try (destruct Hb as [<- | []]).
  all: try contradiction.
  all: try (split; reflexivity).
  all: exfalso; apply Hne.
  all: match goal with
       | H : negb (String.eqb _ _) = false |- _ =>
           apply Bool.negb_false_iff, String.eqb_eq in H; congruence
       end.
Qed.

Lemma C4_forbidden_before_key_store_witness :
  outcome (signWithEthers Scenario.other_email Scenario.env_all Scenario.bearer)
  = Sent (text_response 403 "Forbidden") /\
  existsb (touches KeyShareStore)
    (trace (signWithEthers Scenario.other_email Scenario.env_all Scenario.bearer))
  = false.
Proof.
  apply (C4_forbidden_before_key_store Scenario.other_email Scenario.env_all
           Scenario.bearer _ {| user_email := "a@b.com" |}
           {| rb_email := Some "mallory@b.com" |}).
  - left. reflexivity.
  - simpl. left. reflexivity.
  - simpl. left. reflexivity.
  - simpl. discriminate.
Defined.

(** C5, as stated, fails: with [CAPSULE_API_KEY] unset, a request
    without [Authorization] header gets 401 from [signWithEthers], a
    request for somebody else's wallet gets 403 from [signWithCosmJS],
    and a request without session gets 400 from
    [alchemySessionSignHandler]; none gets 500. *)
Lemma C5_unset_key_401_403_400 :
  Scenario.env_empty "CAPSULE_API_KEY" = None /\
  status_of (signWithEthers Scenario.cooperative Scenario.env_empty
               Scenario.anonymous) = Some 401 /\
  status_of (signWithCosmJS Scenario.other_email Scenario.env_empty
               Scenario.bearer) = Some 403 /\
  status_of (alchemySessionSignHandler Scenario.cooperative
               Scenario.encodeFunctionData Scenario.env_empty
               Scenario.without_session) = Some 400.
Proof. repeat split. Qed.

(** C5, amended: with [CAPSULE_API_KEY] unset, a request that passes
    the checks the route makes first gets 500: a session (and, for the
    ethers route, an email) in the body of a session route; a verified
    token and a body whose email is the subject's for a
    pregenerated-wallet route.  Whatever the request, no route makes a
    network call and none answers 200. *)
Theorem C5_unset_key_500_after_validation world enc env :
  env "CAPSULE_API_KEY" = None ->
  (forall req,
     truthy (body_session req) <> None ->
     alchemySessionSignHandler world enc env req =
       ([], Sent (text_response 500
                    "CAPSULE_API_KEY not set. Set it in the environment before using this handler."))) /\
  (forall req,
     truthy (body_email req) <> None ->
     truthy (body_session req) <> None ->
     ethersSessionSignHandler world env req =
       ([], Sent (text_response 500
                    "Set CAPSULE_API_KEY in the environment before using this handler."))) /\
  (forall req run user b,
     run = signWithEthers world env req \/ run = signWithCosmJS world env req ->
     In user (collect verified_subject (trace run)) ->
     In b (collect parsed_body (trace run)) ->
     rb_email b = Some (user_email user) ->
     outcome run = Sent (text_response 500 "CAPSULE_API_KEY not set")) /\
  (forall sreq dreq run,
     run = alchemySessionSignHandler world enc env sreq \/
     run = ethersSessionSignHandler world env sreq \/
     run = signWithEthers world env dreq \/
     run = signWithCosmJS world env dreq ->
     existsb network_call (trace run) = false /\ status_of run <> Some 200).
Proof.
  intros Hkey. split; [| split; [| split]].
  - intros req Hs.
    unfold alchemySessionSignHandler, alchemySessionSignHandler_try,
      express_try_catch.
    destruct (truthy (body_session req)); [| contradiction].
    now rewrite Hkey.
  - intros req He Hs.
    unfold ethersSessionSignHandler, ethersSessionSignHandler_try,
      express_try_catch.
    destruct (truthy (body_email req)); [| contradiction].
    destruct (truthy (body_session req)); [| contradiction].
    now rewrite Hkey.
  - intros req run user b Hrun. revert user b.
    destruct Hrun as [-> | ->]; by_wp.
    all: cbn; intros user b' Hu Hb He.
    all: try (destruct Hu as [<- | []]).
    all: try (destruct Hb as [<- | []]).
    all: try contradiction.
    all: try reflexivity.
    all: try (rewrite Hkey in *; discriminate).
    all: try congruence.
    all: match goal with
         | H : negb (String.eqb _ _) = true |- _ =>
             apply Bool.negb_true_iff, String.eqb_neq in H; congruence
         end.
  - intros sreq dreq run Hrun. split.
    + destruct Hrun as [-> | [-> | [-> | ->]]]; by_wp; cbn;
        first [reflexivity | rewrite Hkey in *; discriminate].
    + destruct Hrun as [-> | [-> | [-> | ->]]]; by_wp; cbn;
        first [discriminate | rewrite Hkey in *; discriminate].
Qed.

Lemma C5_unset_key_500_after_validation_witness :
  Scenario.env_empty "CAPSULE_API_KEY" = None /\
  ethersSessionSignHandler Scenario.cooperative Scenario.env_empty
    Scenario.with_session =
  ([], Sent (text_response 500
               "Set CAPSULE_API_KEY in the environment before using this handler.")).
Proof.
  split; [reflexivity |].
  apply (proj1 (proj2 (C5_unset_key_500_after_validation Scenario.cooperative
                         Scenario.encodeFunctionData Scenario.env_empty eq_refl))).
  - simpl. discriminate.
  - simpl. discriminate.
Defined.

(** C6: in a run of [signWithEthers] in which the wallet-existence
    check answered [false], the handler answers 400 with the text
    "Wallet does not exist" and the log has no call to the chain
    library: no provider is constructed or asked anything.  Such a run
    went through a verified token and a body whose email is the
    subject's. *)
Theorem C6_wallet_does_not_exist world env req run :
  run = signWithEthers world env req ->
  existsb wallet_denied (trace run) = true ->
  outcome run = Sent (text_response 400 "Wallet does not exist") /\
  existsb (touches ChainLibrary) (trace run) = false /\
  exists user b,
    In user (collect verified_subject (trace run)) /\
    In b (collect parsed_body (trace run)) /\
    rb_email b = Some (user_email user).
Proof.
  intros ->. by_wp.
  all: settle_flags.
  all: cbn; intros H; try discriminate H.
  all: repeat split.
  all: match goal with
       | H : negb (String.eqb (user_email ?u) _) = false,
         E : rb_email ?r = Some _ |- _ =>
           exists u, r; apply Bool.negb_false_iff, String.eqb_eq in H;
           repeat split; [now left | now left | congruence]
       end.
Qed.

Lemma C6_wallet_does_not_exist_witness :
  outcome (signWithEthers Scenario.no_wallet Scenario.env_all Scenario.bearer)
  = Sent (text_response 400 "Wallet does not exist").
Proof.
  apply (C6_wallet_does_not_exist Scenario.no_wallet Scenario.env_all
           Scenario.bearer _ eq_refl).
  reflexivity.
Defined.

(** C7: when [alchemySessionSignHandler] answers 200, its log has
    exactly one [sendUserOperation]; the batch handed to it has five
    calls, each with the Example contract as target, the data of the
    i-th being [encodeFunctionData] of [changeX] applied to the i-th
    element of [[1; 2; 3; 4; 5]]; and [userOperationResult] in the
    response is what that submission returned. *)
Theorem C7_batch_of_five world enc env req tr resp :
  alchemySessionSignHandler world enc env req = (tr, Sent resp) ->
  status resp = 200 ->
  exists uo result,
    collect submitted_batch tr = [(uo, inr result)] /\
    List.length uo = 5%nat /\
    map target uo = repeat EXAMPLE_CONTRACT_ADDRESS 5 /\
    map (fun op => inr (data op)) uo
      = map (fun x => enc "changeX" [x]) [1; 2; 3; 4; 5] /\
    body resp =
      Json [("message",
             "Sent user operation using Alchemy + Capsule (session-based wallet, viem-based).");
            ("userOperationResult", result)].
Proof.
  revert tr resp. by_wp.
  all: intros tr resp E Hs; inversion E; subst; clear E; try discriminate Hs.
  eexists _, _.
  cbn [collect submitted_batch map repeat List.length target data body
         json_response].
  repeat split.
  repeat match goal with H : enc _ _ = inr _ |- _ => rewrite H; clear H end.
  reflexivity.
Qed.

Lemma C7_batch_of_five_witness :
  exists uo result,
    collect submitted_batch
      (trace (alchemySessionSignHandler Scenario.cooperative
                Scenario.encodeFunctionData Scenario.env_all
                Scenario.with_session)) = [(uo, inr result)] /\
    List.length uo = 5%nat.
Proof.
  destruct (C7_batch_of_five Scenario.cooperative Scenario.encodeFunctionData
              Scenario.env_all Scenario.with_session _ _ eq_refl eq_refl)
    as (uo & result & H & L & _).
  exists uo, result. split; [exact H | exact L].
Defined.

(** C8: in every run of a pregenerated-wallet handler, a key-share
    lookup comes after a wallet-existence check that answered [true];
    a check that answered [false] ends the request with 400 "Wallet
    does not exist"; a lookup that found no share ends it with 400
    "Key share does not exist"; the share is decrypted at most once;
    the check, the lookup and [setUserShare] happen at most once each;
    and a call that throws is the last entry of the log, the request
    ending with what was thrown. *)
Theorem C8_key_share_resolution world env req run :
  run = signWithEthers world env req \/ run = signWithCosmJS world env req ->
  (forall pre ev post,
     trace run = (pre ++ ev :: post)%list ->
     is_key_share_lookup ev = true ->
     existsb wallet_confirmed pre = true) /\
  (existsb wallet_denied (trace run) = true ->
   outcome run = Sent (text_response 400 "Wallet does not exist")) /\
  (existsb key_share_missing (trace run) = true ->
   outcome run = Sent (text_response 400 "Key share does not exist")) /\
  (count is_decrypt (trace run) <= 1)%nat /\
  (count is_wallet_check (trace run) <= 1)%nat /\
  (count is_key_share_lookup (trace run) <= 1)%nat /\
  (count is_setUserShare (trace run) <= 1)%nat /\
  (forall pre ev post e,
     trace run = (pre ++ ev :: post)%list ->
     thrown_value ev = Some e ->
     post = [] /\ outcome run = Rejected e).
Proof.
  intros Hrun.
  destruct (pregen_run_facts world env req run Hrun)
    as (Order & Terminal & Denied & Missing & Cw & Ck & Cd & Cs & _ & _).
  split; [| split; [| split; [| split; [| split; [| split; [| split]]]]]];
    try assumption.
  - intros pre ev post E. exact (by_splits _ _ Order pre ev post E).
  - intros pre ev post e E T. exact (by_splits _ _ Terminal pre ev post E e T).
Qed.

Lemma C8_key_share_resolution_witness :
  outcome (signWithCosmJS Scenario.no_key_share Scenario.env_all Scenario.bearer)
  = Sent (text_response 400 "Key share does not exist").
Proof.
  apply (C8_key_share_resolution Scenario.no_key_share Scenario.env_all
           Scenario.bearer _ (or_intror eq_refl)).
  reflexivity.
Defined.

(** C9, as stated, fails on the Deno handlers: when the identity
    service throws during the wallet-existence check, [signWithEthers]
    ends with a rejected promise that carries the error; nothing is
    logged and no response is produced. *)
Lemma C9_rejection_not_caught :
  existsb threw
    (trace (signWithEthers Scenario.identity_service_down Scenario.env_all
              Scenario.bearer)) = true /\
  outcome (signWithEthers Scenario.identity_service_down Scenario.env_all
             Scenario.bearer) = Rejected "ECONNRESET" /\
  ~ caught_and_reported
      (signWithEthers Scenario.identity_service_down Scenario.env_all
         Scenario.bearer).
Proof.
  repeat split.
  intros [Hlog _]. vm_compute in Hlog. discriminate Hlog.
Qed.

(** C9, amended: in the session handlers every exception of the [try]
    block is caught: it is written with [console.error] under the
    handler's label and handed to [next], the handler itself sends no
    response and its promise never rejects; a response is sent only in
    runs in which nothing threw.  The pregenerated-wallet handlers
    catch nothing: a call that throws ends the run with a promise
    rejected with what was thrown, and these handlers never log and
    never call [next]. *)
Theorem C9_exceptions_at_the_boundary world enc env :
  (forall req run label,
     (run = alchemySessionSignHandler world enc env req /\
      label = "Error in alchemySessionSignHandler:") \/
     (run = ethersSessionSignHandler world env req /\
      label = "Error in ethersSessionSignHandler:") ->
     (forall pre ev post e,
        trace run = (pre ++ ev :: post)%list ->
        thrown_value ev = Some e ->
        post = [Console_error label e] /\ outcome run = Next e) /\
     (forall e, outcome run = Next e ->
                exists h, trace run = (h ++ [Console_error label e])%list /\
                          existsb is_log h = false) /\
     (forall resp, outcome run = Sent resp ->
                   existsb threw (trace run) = false /\
                   existsb is_log (trace run) = false) /\
     (forall e, outcome run <> Rejected e)) /\
  (forall req h e,
     alchemySessionSignHandler_try world enc env req [] = (h, inl e) ->
     alchemySessionSignHandler world enc env req =
       ((h ++ [Console_error "Error in alchemySessionSignHandler:" e])%list,
        Next e)) /\
  (forall req h e,
     ethersSessionSignHandler_try world env req [] = (h, inl e) ->
     ethersSessionSignHandler world env req =
       ((h ++ [Console_error "Error in ethersSessionSignHandler:" e])%list,
        Next e)) /\
  (forall req run,
     run = signWithEthers world env req \/ run = signWithCosmJS world env req ->
     (forall pre ev post e,
        trace run = (pre ++ ev :: post)%list ->
        thrown_value ev = Some e ->
        post = [] /\ outcome run = Rejected e) /\
     existsb is_log (trace run) = false /\
     (forall e, outcome run <> Next e)).
Proof.
  split; [| split; [| split]].
  - intros req run label Hrun.
    destruct (express_run_facts world enc env req run label Hrun)
      as (Caught & Logged & Clean & Never).
    split; [| split; [| split]]; try assumption.
    intros pre ev post e E T. exact (by_splits _ _ Caught pre ev post E e T).
  - intros req h e H. unfold alchemySessionSignHandler, express_try_catch.
    now rewrite H.
  - intros req h e H. unfold ethersSessionSignHandler, express_try_catch.
    now rewrite H.
  - intros req run Hrun.
    destruct (pregen_run_facts world env req run Hrun)
      as (_ & Terminal & _ & _ & _ & _ & _ & _ & Quiet & Never).
    split; [| split]; try assumption.
    intros pre ev post e E T. exact (by_splits _ _ Terminal pre ev post E e T).
Qed.

Lemma C9_exceptions_at_the_boundary_witness :
  alchemySessionSignHandler Scenario.identity_service_down
    Scenario.encodeFunctionData Scenario.env_all Scenario.with_session =
  ([Ev (new_CapsuleServer "BETA" "capsule-key") (inr tt);
    Ev (importSession "abc") (inl "ECONNRESET");
    Console_error "Error in alchemySessionSignHandler:" "ECONNRESET"],
   Next "ECONNRESET").
Proof.
  apply (proj1 (proj2 (C9_exceptions_at_the_boundary
                         Scenario.identity_service_down
                         Scenario.encodeFunctionData Scenario.env_all))
           Scenario.with_session
           [Ev (new_CapsuleServer "BETA" "capsule-key") (inr tt);
            Ev (importSession "abc") (inl "ECONNRESET")]
           "ECONNRESET").
  reflexivity.
Defined.

(* ================================================================== *)
(** ** Further properties of the signature normalizer *)
(* ================================================================== *)

Lemma every_ascii_listed (a : ascii) : In a all_ascii.
Proof.
  unfold all_ascii. rewrite <- (ascii_nat_embedding a).
  apply in_map, in_seq. pose proof (nat_ascii_bounded a). lia.
Qed.

(** Checked on each of the 65536 pairs of characters. *)
Lemma adjusted_tail_checked :
  forallb (fun a => forallb (adjusted_tail_ok a) all_ascii) all_ascii = true.
Proof. vm_compute. reflexivity. Qed.

Lemma adjusted_tail_shape (a b : ascii) (t : string) :
  adjusted_tail a b = Some t ->
  exists c d v,
    t = String c (String d "") /\
    bytes_of_hex t = Some [v] /\ 12 <= v <= 53.
Proof.
  intros H.
  pose proof adjusted_tail_checked as All.
  rewrite forallb_forall in All.
  specialize (All a (every_ascii_listed a)).
  rewrite forallb_forall in All.
  specialize (All b (every_ascii_listed b)).
  unfold adjusted_tail_ok in All. rewrite H in All.
  apply andb_prop in All as [Len Read].
  apply Nat.eqb_eq in Len.
  destruct t as [|c [|d [|x t]]]; try discriminate Len.
  exists c, d.
  destruct (bytes_of_hex (String c (String d ""))) as [[|v [|w l]]|];
    try discriminate Read.
  exists v. apply andb_prop in Read as [Lo Hi].
  apply Z.leb_le in Lo, Hi. repeat split; assumption.
Qed.

Lemma string_last_two (s : string) :
  (2 <= String.length s)%nat ->
  exists p a b, s = p ++ String a (String b "").
Proof.
  induction s as [|c s IH]; intros Hs; simpl in Hs; [lia |].
  destruct s as [|d s]; simpl in Hs; [lia |].
  destruct s as [|x s].
  - now exists "", c, d.
  - destruct IH as (p & a & b & E); [simpl; lia |].
    exists (String c p), a, b. simpl. now rewrite <- E.
Qed.

Lemma adjustV_by_tail (p : string) (a b : ascii) :
  adjustV (p ++ String a (String b "")) =
  match adjusted_tail a b with
  | Some t => p ++ t
  | None => p ++ String a (String b "")
  end.
Proof.
  rewrite adjustV_app2. unfold adjusted_tail.
  destruct (Js.parseInt16 (String a (String b ""))) as [v|]; [| reflexivity].
  now destruct (v <? 27).
Qed.

(** X1: on every hexadecimal signature the normalizer is idempotent. *)
Theorem X1_adjustV_idempotent_on_signatures (s : string) (bs : list Z) :
  bytes_of_hex s = Some bs -> adjustV (adjustV s) = adjustV s.
Proof. exact (adjustV_idempotent s bs). Qed.

Lemma X1_adjustV_idempotent_on_signatures_witness :
  adjustV (adjustV "aabb05") = adjustV "aabb05".
Proof.
  exact (X1_adjustV_idempotent_on_signatures "aabb05" [170; 187; 5] eq_refl).
Defined.

(** X2: whatever the text, hexadecimal or not, as soon as it has two
    characters the normalizer keeps its length and everything before
    the last two characters; if it rewrites the last two, they become
    the digits of a byte between 12 and 53. *)
Theorem X2_adjustV_keeps_text_before_tail (s : string) :
  (2 <= String.length s)%nat ->
  String.length (adjustV s) = String.length s /\
  Js.slice_drop2 (adjustV s) = Js.slice_drop2 s /\
  (adjustV s <> s ->
   exists v, bytes_of_hex (Js.slice_last2 (adjustV s)) = Some [v] /\
             12 <= v <= 53).
Proof.
  intros Hs. destruct (string_last_two s Hs) as (p & a & b & ->).
  rewrite adjustV_by_tail.
  destruct (adjusted_tail a b) as [t|] eqn:Ht.
  - destruct (adjusted_tail_shape a b t Ht) as (c & d & v & -> & Hv & Hr).
    rewrite !string_length_app, !slice_drop2_app, slice_last2_app.
    repeat split; try reflexivity. intros _. now exists v.
  - repeat split; try reflexivity. intros H. now contradiction H.
Qed.

Lemma X2_adjustV_keeps_text_before_tail_witness :
  String.length (adjustV "zz-f") = String.length "zz-f" /\
  Js.slice_drop2 (adjustV "zz-f") = Js.slice_drop2 "zz-f".
Proof.
  destruct (X2_adjustV_keeps_text_before_tail "zz-f") as (L & D & _).
  - simpl. lia.
  - split; [exact L | exact D].
Defined.

(** X3: a signature of a single hexadecimal digit [d] is not left
    alone: it is read as the byte [d] and replaced by the two digits
    of [d + 27], so the text grows by one character. *)
Theorem X3_adjustV_single_digit (c : ascii) (d : Z) :
  Js.hex_digit_value c = Some d ->
  adjustV (String c "") = hex_of_byte (d + 27) /\
  String.length (adjustV (String c "")) = 2%nat /\
  bytes_of_hex (adjustV (String c "")) = Some [d + 27].
Proof.
  intros Hc.
  destruct (hex_digit_plain _ _ Hc) as (W & M & P & _ & _ & R).
  assert (E : adjustV (String c "") = hex_of_byte (d + 27)).
  { unfold adjustV.
    change (Js.slice_last2 (String c "")) with (String c "").
    change (Js.slice_drop2 (String c "")) with "".
    unfold Js.parseInt16. simpl Js.trim_start. rewrite W, M, P.
    simpl Js.digits_prefix. rewrite Hc.
    unfold Js.digits_value.
    change (fold_left (fun acc x => 16 * acc + x) [d] 0) with (16 * 0 + d).
    replace (1 * (16 * 0 + d)) with d by lia.
    assert (Lt : (d <? 27) = true) by (apply Z.ltb_lt; lia).
    rewrite Lt. rewrite adjustedV_text by lia. reflexivity. }
  rewrite E. repeat split.
  apply hex_of_byte_reads. lia.
Qed.

Lemma X3_adjustV_single_digit_witness :
  adjustV "5" = hex_of_byte (5 + 27).
Proof.
  exact (proj1 (X3_adjustV_single_digit "5" 5 eq_refl)).
Defined.

(* ================================================================== *)
(** ** Further properties of [customSignMessage] *)
(* ================================================================== *)

(** X4: when the SDK answers with a hexadecimal signature whose last
    byte is [b], [customSignMessage] resolves to [0x] followed by a
    signature with the same bytes but the last, which is
    [adjust_byte b], hence at least 27; it asked for one signature,
    with the first wallet, over the base64 form of the hashed
    message. *)
Theorem X4_customSignMessage_hash world hashMessage hexStringToBase64
    message h h' hash :
  customSignMessage world hashMessage hexStringToBase64 message h
  = (h', inr hash) ->
  exists walletId others signature,
    h' = (h ++ [Ev capsule_wallets (inr (walletId :: others));
                Ev (capsule_signMessage walletId
                      (hexStringToBase64 (hashMessage message)))
                   (inr (Some signature))])%list /\
    hash = "0x" ++ adjustV signature /\
    (forall bs b,
       bytes_of_hex signature = Some (bs ++ [b])%list ->
       bytes_of_hex (adjustV signature) = Some (bs ++ [adjust_byte b])%list /\
       27 <= adjust_byte b).
Proof.
  intros H.
  destruct (customSignMessage_normalizes _ _ _ _ _ _ _ H)
    as (walletId & others & signature & Hlog & Hhash).
  exists walletId, others, signature. repeat split; try assumption.
  - now destruct (adjustV_bytes _ _ _ H0).
  - destruct (adjustV_bytes _ _ _ H0) as (_ & _ & _ & Rb).
    unfold adjust_byte. destruct (b <? 27) eqn:Lt; [lia |].
    now apply Z.ltb_ge in Lt.
Qed.

Lemma X4_customSignMessage_hash_witness :
  exists walletId others signature,
    [Ev capsule_wallets (inr ["wallet-1"]);
     Ev (capsule_signMessage "wallet-1" "hello") (inr (Some "aabb00"))]
    = ([] ++ [Ev capsule_wallets (inr (walletId :: others));
              Ev (capsule_signMessage walletId "hello")
                 (inr (Some signature))])%list /\
    "0xaabb1b" = "0x" ++ adjustV signature.
Proof.
  destruct (X4_customSignMessage_hash Scenario.cooperative (fun m => m)
              (fun m => m) "hello" [] _ _ eq_refl)
    as (walletId & others & signature & Hlog & Hhash & _).
  exists walletId, others, signature. split; [exact Hlog | exact Hhash].
Defined.

(** X5: [customSignMessage] returns only when there is a wallet and
    the SDK answered with a signature.  With no wallet it throws a
    [TypeError] and asks for no signature; when the answer carries no
    signature it throws a [TypeError] after that single request; an
    error of the SDK is passed on.  In no case does it ask for more
    than one signature. *)
Theorem X5_customSignMessage_failures world hashMessage hexStringToBase64
    message h :
  let run := customSignMessage world hashMessage hexStringToBase64 message h in
  (exists new, fst run = (h ++ new)%list /\ (count is_signing new <= 1)%nat) /\
  (world _ h capsule_wallets = inr [] ->
   run = ((h ++ [Ev capsule_wallets (inr [])])%list,
          inl "TypeError: Cannot read properties of undefined (reading 'id')")) /\
  (forall e, world _ h capsule_wallets = inl e ->
   run = ((h ++ [Ev capsule_wallets (inl e)])%list, inl e)) /\
  (forall walletId others,
     world _ h capsule_wallets = inr (walletId :: others) ->
     let h1 := (h ++ [Ev capsule_wallets (inr (walletId :: others))])%list in
     let request :=
       capsule_signMessage walletId (hexStringToBase64 (hashMessage message)) in
     (world _ h1 request = inr None ->
      run = ((h1 ++ [Ev request (inr None)])%list,
             inl "TypeError: Cannot read properties of undefined (reading 'slice')")) /\
     (forall e, world _ h1 request = inl e ->
      run = ((h1 ++ [Ev request (inl e)])%list, inl e))).
Proof.
  cbv zeta. unfold customSignMessage, bind, call, throw, ret.
  split; [| split; [| split]].
  - destruct (world _ h capsule_wallets) as [e | [| walletId others]].
    + eexists. split; [reflexivity | cbn; lia].
    + eexists. split; [reflexivity | cbn; lia].
    + destruct (world _ _ (capsule_signMessage _ _)) as [e | [signature |]];
        cbn [fst]; rewrite <- app_assoc;
        (eexists; split; [reflexivity | cbn; lia]).
  - intros E. now rewrite E.
  - intros e E. now rewrite E.
  - intros walletId others E. rewrite E. split.
    + intros E1. now rewrite E1.
    + intros e E1. now rewrite E1.
Qed.

Lemma X5_customSignMessage_failures_witness :
  customSignMessage Cases.no_wallets (fun m => m) (fun m => m) "hello" [] =
  ([Ev capsule_wallets (inr [])],
   inl "TypeError: Cannot read properties of undefined (reading 'id')").
Proof.
  exact (proj1 (proj2 (X5_customSignMessage_failures Cases.no_wallets
                         (fun m => m) (fun m => m) "hello" [])) eq_refl).
Defined.

(* ================================================================== *)
(** ** Further properties of the session handlers *)
(* ================================================================== *)

Lemma truthy_Some (v : option string) (s : string) :
  truthy v = Some s -> v = Some s /\ s <> "".
Proof.
  destruct v as [t|]; [| discriminate]. unfold truthy.
  destruct (String.eqb t "") eqn:E; [discriminate |].
  intros [= <-]. split; [reflexivity |]. now apply String.eqb_neq.
Qed.

(** X6: with a session and [CAPSULE_API_KEY], but without
    [ALCHEMY_API_KEY] or without [ALCHEMY_GAS_POLICY_ID] (unset or
    empty), [alchemySessionSignHandler] answers 500 with the message
    about the Alchemy credentials and has called nothing: no Capsule
    client is constructed for a request it cannot complete. *)
Theorem X6_alchemy_credentials_required world enc env req :
  truthy (body_session req) <> None ->
  truthy (env "CAPSULE_API_KEY") <> None ->
  truthy (env "ALCHEMY_API_KEY") = None \/
  truthy (env "ALCHEMY_GAS_POLICY_ID") = None ->
  alchemySessionSignHandler world enc env req =
  ([], Sent (text_response 500
               "ALCHEMY_API_KEY or ALCHEMY_GAS_POLICY_ID not set. Provide these credentials to use Alchemy's AA.")).
Proof.
  intros Hs Hk Ha.
  unfold alchemySessionSignHandler, alchemySessionSignHandler_try,
    express_try_catch.
  destruct (truthy (body_session req)); [| contradiction].
  destruct (truthy (env "CAPSULE_API_KEY")); [| contradiction].
  destruct Ha as [-> | ->]; [reflexivity |].
  now destruct (truthy (env "ALCHEMY_API_KEY")).
Qed.

Lemma X6_alchemy_credentials_required_witness :
  status_of (alchemySessionSignHandler Scenario.cooperative
               Scenario.encodeFunctionData Cases.env_capsule_only
               Scenario.with_session) = Some 500.
Proof.
  rewrite (X6_alchemy_credentials_required Scenario.cooperative
             Scenario.encodeFunctionData Cases.env_capsule_only
             Scenario.with_session).
  - reflexivity.
  - simpl. discriminate.
  - simpl. discriminate.
  - left. reflexivity.
Defined.

(** X7: an empty string counts as a missing field.  With [session]
    absent or empty [alchemySessionSignHandler] answers 400; with
    [session] or [email] absent or empty [ethersSessionSignHandler]
    answers 400; in both cases nothing was called. *)
Theorem X7_empty_fields_are_missing world enc env req :
  (truthy (body_session req) = None ->
   alchemySessionSignHandler world enc env req =
   ([], Sent (text_response 400
                "Session is required. Ensure the client passes a valid session."))) /\
  (truthy (body_email req) = None \/ truthy (body_session req) = None ->
   ethersSessionSignHandler world env req =
   ([], Sent (text_response 400
                "Provide both `email` and `session` in the request body."))).
Proof.
  split.
  - intros H.
    unfold alchemySessionSignHandler, alchemySessionSignHandler_try,
      express_try_catch.
    now rewrite H.
  - intros H.
    unfold ethersSessionSignHandler, ethersSessionSignHandler_try,
      express_try_catch.
    destruct H as [-> | ->]; [reflexivity |].
    now destruct (truthy (body_email req)).
Qed.

Lemma X7_empty_fields_are_missing_witness :
  status_of (alchemySessionSignHandler Scenario.cooperative
               Scenario.encodeFunctionData Scenario.env_all
               Cases.empty_session) = Some 400.
Proof.
  rewrite (proj1 (X7_empty_fields_are_missing Scenario.cooperative
                    Scenario.encodeFunctionData Scenario.env_all
                    Cases.empty_session) eq_refl).
  reflexivity.
Defined.



(** X9: when [encodeFunctionData] fails for one of the five arguments,
    [alchemySessionSignHandler] submits nothing and does not answer
    200; if the run got as far as a ready Alchemy client, the error of
    the first argument that fails is logged and handed to [next]. *)
Theorem X9_encoding_failure_submits_nothing world enc env req run e :
  run = alchemySessionSignHandler world enc env req ->
  first_error (map (fun x => enc "changeX" [x]) [1; 2; 3; 4; 5]) = Some e ->
  existsb is_sendUserOperation (trace run) = false /\
  status_of run <> Some 200 /\
  (existsb alchemy_client_ready (trace run) = true ->
   outcome run = Next e /\
   In (Console_error "Error in alchemySessionSignHandler:" e) (trace run)).
Proof.
  intros ->. cbn [map]. by_wp.
  all: cbn.
  all: repeat match goal with
              | H : ?f "changeX" _ = _ |- _ => rewrite H; clear H
              end.
  all: cbn; intros Hf; try discriminate Hf.
  all: repeat split; try discriminate.
  all: try (injection Hf as <-).
  all: intros; try reflexivity; try discriminate; auto 10.
Qed.

Lemma X9_encoding_failure_submits_nothing_witness :
  outcome (alchemySessionSignHandler Scenario.cooperative
             Cases.encoder_failing_at_3 Scenario.env_all
             Scenario.with_session) = Next "AbiEncodingError".
Proof.
  apply (X9_encoding_failure_submits_nothing Scenario.cooperative
           Cases.encoder_failing_at_3 Scenario.env_all Scenario.with_session
           _ "AbiEncodingError" eq_refl).
  - reflexivity.
  - reflexivity.
Defined.

(** Names the variables and fields a truthy test found set. *)
Ltac name_truthy :=
  repeat match goal with
         | H : truthy _ = Some _ |- _ => apply truthy_Some in H as [? ?]
         end.

Ltac unit_values :=
  repeat match goal with u : unit |- _ => destruct u end.



(** X11: a 200 of [ethersSessionSignHandler] carries, as
    [signedTransaction], the signature of a transfer of 0.001 ether
    from the session wallet to itself: [to] and [from] are the address
    [getAddress] returned, the nonce is the transaction count of that
    address, the gas price is the one of [getFeeData], the gas limit
    is 21000.  The calls are these eight, in this order. *)
Theorem X11_ethers_session_success world env req tr resp :
  ethersSessionSignHandler world env req = (tr, Sent resp) ->
  status resp = 200 ->
  exists session capsuleKey address nonce gasPrice signedTx,
    body_session req = Some session /\
    env "CAPSULE_API_KEY" = Some capsuleKey /\
    tr = [Ev (new_CapsuleServer "BETA" capsuleKey) (inr tt);
          Ev (importSession session) (inr tt);
          Ev (new_JsonRpcProvider
                "https://ethereum-sepolia-rpc.publicnode.com") (inr tt);
          Ev new_CapsuleEthersSigner (inr tt);
          Ev signer_getAddress (inr address);
          Ev (getTransactionCount address) (inr nonce);
          Ev getFeeData (inr gasPrice);
          Ev (signer_signTransaction
                {| tx_to := address;
                   tx_from := Some address;
                   tx_value := 1000000000000000;
                   tx_nonce := nonce;
                   tx_gasLimit := 21000;
                   tx_gasPrice := gasPrice |}) (inr signedTx)] /\
    resp = json_response 200
             [("message",
               "Transaction signed using Ethers + Capsule (session-based wallet).");
              ("signedTransaction", signedTx)].
Proof.
  revert tr resp. by_wp.
  all: intros tr resp E Hs; inversion E; subst; clear E; try discriminate Hs.
  name_truthy. unit_values.
  do 6 eexists. repeat split; eassumption || reflexivity.
Qed.

Lemma X11_ethers_session_success_witness :
  exists signedTx,
    snd (ethersSessionSignHandler Scenario.cooperative Scenario.env_all
           Scenario.with_session) =
    Sent (json_response 200
            [("message",
              "Transaction signed using Ethers + Capsule (session-based wallet).");
             ("signedTransaction", signedTx)]).
Proof.
  destruct (X11_ethers_session_success Scenario.cooperative Scenario.env_all
              Scenario.with_session _ _ eq_refl eq_refl)
    as (session & capsuleKey & address & nonce & gasPrice & signedTx
        & _ & _ & _ & Hr).
  exists signedTx. simpl. now rewrite <- Hr.
Defined.

(** X12: the session handlers never use the email.
    [ethersSessionSignHandler] demands one, yet two requests with the
    same session and any two non-empty emails give the same run;
    [alchemySessionSignHandler] does not look at the field at all. *)
Theorem X12_email_not_used world enc env req req' :
  body_session req = body_session req' ->
  (truthy (body_email req) <> None ->
   truthy (body_email req') <> None ->
   ethersSessionSignHandler world env req
   = ethersSessionSignHandler world env req') /\
  alchemySessionSignHandler world enc env req
  = alchemySessionSignHandler world enc env req'.
Proof.
  intros Hs. split.
  - intros He He'.
    unfold ethersSessionSignHandler, ethersSessionSignHandler_try.
    rewrite <- Hs.
    destruct (truthy (body_email req)); [| contradiction].
    destruct (truthy (body_email req')); [| contradiction].
    reflexivity.
  - unfold alchemySessionSignHandler, alchemySessionSignHandler_try.
    now rewrite Hs.
Qed.

Lemma X12_email_not_used_witness :
  ethersSessionSignHandler Scenario.cooperative Scenario.env_all
    Scenario.with_session
  = ethersSessionSignHandler Scenario.cooperative Scenario.env_all
      Cases.other_email_body.
Proof.
  apply (proj1 (X12_email_not_used Scenario.cooperative
                  Scenario.encodeFunctionData Scenario.env_all
                  Scenario.with_session Cases.other_email_body eq_refl)).
  - simpl. discriminate.
  - simpl. discriminate.
Defined.

(* ================================================================== *)
(** ** Further properties of the pregenerated-wallet handlers *)
(* ================================================================== *)

(** X13: without an [Authorization] header, with an empty one, or with
    one that does not start with [Bearer ], both handlers answer 401
    and have called nothing: the token verification is not consulted,
    the body is not read, and the environment and the collaborators
    play no role. *)
Theorem X13_unauthorized_without_verification world env req :
  truthy (authorization req) = None \/
  (exists header, authorization req = Some header /\
                  String.prefix "Bearer " header = false) ->
  signWithEthers world env req = ([], Sent (text_response 401 "Unauthorized")) /\
  signWithCosmJS world env req = ([], Sent (text_response 401 "Unauthorized")).
Proof.
  intros H. unfold signWithEthers, signWithCosmJS, async_handler, pregen_prologue.
  destruct H as [-> | (header & -> & Hp)]; [now split |].
  unfold truthy. destruct (String.eqb header ""); [now split |].
  rewrite Hp. now split.
Qed.

Lemma X13_unauthorized_without_verification_witness :
  signWithEthers Scenario.cooperative Scenario.env_all Cases.basic_auth
  = ([], Sent (text_response 401 "Unauthorized")).
Proof.
  apply (X13_unauthorized_without_verification Scenario.cooperative
           Scenario.env_all Cases.basic_auth).
  right. exists "Basic abc". split; reflexivity.
Defined.

(** X14: when the token verification answers that the token is not
    valid, both handlers answer 401 and that verification is the only
    entry of the log: the body of the request is never read. *)
Theorem X14_invalid_token_401 world env req run :
  run = signWithEthers world env req \/ run = signWithCosmJS world env req ->
  existsb token_rejected (trace run) = true ->
  outcome run = Sent (text_response 401 "Unauthorized") /\
  List.length (trace run) = 1%nat /\
  existsb is_body_read (trace run) = false.
Proof.
  intros [-> | ->]; by_wp.
  all: cbn; intros H; try discriminate H.
  all: repeat split.
Qed.

Lemma X14_invalid_token_401_witness :
  outcome (signWithCosmJS Cases.invalid_token Scenario.env_all Scenario.bearer)
  = Sent (text_response 401 "Unauthorized").
Proof.
  apply (X14_invalid_token_401 Cases.invalid_token Scenario.env_all
           Scenario.bearer _ (or_intror eq_refl)).
  reflexivity.
Defined.

Lemma split_space_head (s : string) :
  exists rest, split_space s = first_segment s :: rest.
Proof.
  induction s as [|c s (rest & IH)]; [now exists [] |].
  simpl. destruct (Ascii.eqb c " ").
  - now exists (split_space s).
  - rewrite IH. now exists rest.
Qed.

Lemma first_segment_no_space (s : string) :
  has_space (first_segment s) = false.
Proof.
  induction s as [|c s IH]; [reflexivity |].
  simpl. destruct (Ascii.eqb c " ") eqn:E; [reflexivity |].
  simpl. now rewrite E.
Qed.

Lemma first_segment_whole (s : string) :
  has_space s = false -> first_segment s = s.
Proof.
  induction s as [|c s IH]; [reflexivity |].
  simpl. destruct (Ascii.eqb c " "); [discriminate |].
  simpl. intros H. now rewrite IH.
Qed.

Lemma bearer_prefix (t : string) :
  String.prefix "Bearer " ("Bearer " ++ t) = true.
Proof. simpl. now destruct t. Qed.

Lemma bearer_token (t : string) :
  nth_error (split_space ("Bearer " ++ t)) 1 = Some (first_segment t).
Proof.
  destruct (split_space_head t) as (rest & E).
  simpl. rewrite E. reflexivity.
Qed.

(** X15: for a header [Bearer t], the first thing both handlers do is
    verify a token, and the token they verify is [t] up to its first
    space: all of [t] when it has no space, the empty string when [t]
    starts with one.  What follows a space is never looked at. *)
Theorem X15_token_is_first_segment world env t run :
  run = signWithEthers world env {| authorization := Some ("Bearer " ++ t) |} \/
  run = signWithCosmJS world env {| authorization := Some ("Bearer " ++ t) |} ->
  (exists answer rest,
     trace run = Ev (simulateVerifyToken (Some (first_segment t))) answer :: rest /\
     existsb is_token_check rest = false) /\
  has_space (first_segment t) = false /\
  (has_space t = false -> first_segment t = t).
Proof.
  intros Hrun.
  split; [| split; [apply first_segment_no_space | apply first_segment_whole]].
  destruct Hrun as [-> | ->]; by_wp.
  all: try match goal with
           | H : truthy _ = None |- _ => cbn in H; discriminate H
           end.
  all: match goal with
       | H : truthy _ = Some _ |- _ =>
           change (truthy (authorization _)) with (Some ("Bearer " ++ t)) in H;
           injection H as <-
       end.
  all: try match goal with
           | H : negb (String.prefix _ _) = true |- _ =>
               change (negb (String.prefix "Bearer " ("Bearer " ++ t)) = true) in H;
               rewrite bearer_prefix in H; discriminate H
           end.
  all: change (nth_error (split_space _) 1)
         with (nth_error (split_space ("Bearer " ++ t)) 1).
  all: rewrite bearer_token.
  all: do 2 eexists; split; reflexivity.
Qed.

Lemma X15_token_is_first_segment_witness :
  exists answer rest,
    trace (signWithEthers Scenario.cooperative Scenario.env_all
             {| authorization := Some ("Bearer " ++ "abc def") |})
    = Ev (simulateVerifyToken (Some "abc")) answer :: rest.
Proof.
  destruct (X15_token_is_first_segment Scenario.cooperative Scenario.env_all
              "abc def" _ (or_introl eq_refl)) as ((answer & rest & E & _) & _).
  exists answer, rest. exact E.
Defined.

(** The email of the body is the subject's once the comparison of the
    source let the request through. *)
Ltac name_email :=
  repeat match goal with
         | H : negb (String.eqb _ _) = false |- _ =>
             apply Bool.negb_false_iff, String.eqb_eq in H
         end.

(** X16: a 200 of [signWithEthers] was reached through exactly these
    fourteen calls, in this order.  The wallet check and the key-share
    lookup are made for the email of the verified subject; what is
    decrypted is the stored share and what is installed is the result
    of the decryption; the message signed is the fixed text; the
    transaction signed sends 0.01 ether to the wallet's own address
    with the nonce and gas price the provider returned; the response
    carries the two signatures as they were returned. *)
Theorem X16_signWithEthers_success world env req tr resp :
  signWithEthers world env req = (tr, Sent resp) ->
  status resp = 200 ->
  exists header user requestBody key share plain address sig nonce gasPrice
         signedTx,
    authorization req = Some header /\
    env "CAPSULE_API_KEY" = Some key /\
    rb_email requestBody = Some (user_email user) /\
    tr = [Ev (simulateVerifyToken (nth_error (split_space header) 1))
             (inr (Some user));
          Ev req_json (inr requestBody);
          Ev (new_CapsuleServer "BETA" key) (inr tt);
          Ev (hasPregenWallet (user_email user)) (inr true);
          Ev (getKeyShareInDB (user_email user)) (inr (Some share));
          Ev (decrypt share) (inr plain);
          Ev (setUserShare plain) (inr tt);
          Ev (new_JsonRpcProvider
                "https://ethereum-sepolia-rpc.publicnode.com") (inr tt);
          Ev new_CapsuleEthersSigner (inr tt);
          Ev signer_getAddress (inr address);
          Ev (signer_signMessage
                "Sign with Capsule PreGen and Capsule Ethers Signer") (inr sig);
          Ev (getTransactionCount address) (inr nonce);
          Ev getFeeData (inr gasPrice);
          Ev (signer_signTransaction
                {| tx_to := address;
                   tx_from := None;
                   tx_value := 10000000000000000;
                   tx_nonce := nonce;
                   tx_gasLimit := 21000;
                   tx_gasPrice := gasPrice |}) (inr signedTx)] /\
    resp = json_response 200
             [("route", "signWithEthers");
              ("signMessageResult", sig);
              ("signTxResult", signedTx)].
Proof.
  revert tr resp. by_wp.
  all: intros tr resp E Hs; inversion E; subst; clear E; try discriminate Hs.
  settle_flags. name_truthy. name_email. unit_values. subst.
  do 11 eexists. repeat split; eassumption || reflexivity.
Qed.

Lemma X16_signWithEthers_success_witness :
  exists sig signedTx,
    snd (signWithEthers Scenario.cooperative Scenario.env_all Scenario.bearer)
    = Sent (json_response 200
              [("route", "signWithEthers");
               ("signMessageResult", sig);
               ("signTxResult", signedTx)]).
Proof.
  assert (E : signWithEthers Scenario.cooperative Scenario.env_all
                Scenario.bearer
              = (fst (signWithEthers Scenario.cooperative Scenario.env_all
                        Scenario.bearer),
                 Sent (json_response 200
                         [("route", "signWithEthers");
                          ("signMessageResult", "0xsig");
                          ("signTxResult", "0xsignedtx")])))
    by (vm_compute; reflexivity).
  destruct (X16_signWithEthers_success Scenario.cooperative Scenario.env_all
              Scenario.bearer _ _ E eq_refl)
    as (header & user & requestBody & key & share & plain & address & sig
        & nonce & gasPrice & signedTx & _ & _ & _ & _ & Hr).
  exists sig, signedTx. rewrite E. cbn [snd]. now rewrite <- Hr.
Defined.

(** X17: a 200 of [signWithCosmJS] was reached through exactly these
    eleven calls, in this order.  The identity is resolved as in
    [signWithEthers]; then one signature is requested from the
    Stargate client, by the address of the Capsule signer, for one
    [MsgSend] of 1000 uatom from that address to the placeholder
    address of the source, with a fee of 500 uatom, 200000 gas and the
    memo of the source; the response carries the result. *)
Theorem X17_signWithCosmJS_success world env req tr resp :
  signWithCosmJS world env req = (tr, Sent resp) ->
  status resp = 200 ->
  exists header user requestBody key share plain fromAddr signResult,
    authorization req = Some header /\
    env "CAPSULE_API_KEY" = Some key /\
    rb_email requestBody = Some (user_email user) /\
    tr = [Ev (simulateVerifyToken (nth_error (split_space header) 1))
             (inr (Some user));
          Ev req_json (inr requestBody);
          Ev (new_CapsuleServer "BETA" key) (inr tt);
          Ev (hasPregenWallet (user_email user)) (inr true);
          Ev (getKeyShareInDB (user_email user)) (inr (Some share));
          Ev (decrypt share) (inr plain);
          Ev (setUserShare plain) (inr tt);
          Ev (new_CapsuleProtoSigner "cosmos") (inr tt);
          Ev (connectWithSigner "https://rpc-t.cosmos.nodestake.top") (inr tt);
          Ev protoSigner_address (inr fromAddr);
          Ev (stargate_sign fromAddr
                [{| typeUrl := "/cosmos.bank.v1beta1.MsgSend";
                    value := {| fromAddress := fromAddr;
                                toAddress := "cosmos1...";
                                msg_amount :=
                                  [{| denom := "uatom"; amount := "1000" |}] |} |}]
                {| fee_amount := [{| denom := "uatom"; amount := "500" |}];
                   gas := "200000" |}
                "Signed with Capsule") (inr signResult)] /\
    resp = json_response 200
             [("route", "signWithCosmJS"); ("signResult", signResult)].
Proof.
  revert tr resp. by_wp.
  all: intros tr resp E Hs; inversion E; subst; clear E; try discriminate Hs.
  settle_flags. name_truthy. name_email. unit_values. subst.
  do 8 eexists. repeat split; eassumption || reflexivity.
Qed.

Lemma X17_signWithCosmJS_success_witness :
  exists signResult,
    snd (signWithCosmJS Scenario.cooperative Scenario.env_all Scenario.bearer)
    = Sent (json_response 200
              [("route", "signWithCosmJS"); ("signResult", signResult)]).
Proof.
  assert (E : signWithCosmJS Scenario.cooperative Scenario.env_all
                Scenario.bearer
              = (fst (signWithCosmJS Scenario.cooperative Scenario.env_all
                        Scenario.bearer),
                 Sent (json_response 200
                         [("route", "signWithCosmJS"); ("signResult", "txraw")])))
    by (vm_compute; reflexivity).
  destruct (X17_signWithCosmJS_success Scenario.cooperative Scenario.env_all
              Scenario.bearer _ _ E eq_refl)
    as (header & user & requestBody & key & share & plain & fromAddr
        & signResult & _ & _ & _ & _ & Hr).
  exists signResult. rewrite E. cbn [snd]. now rewrite <- Hr.
Defined.

(** X18: no handler asks for a signature before the identity is in
    place.  In the pregenerated-wallet handlers every signing call
    comes after a wallet check that answered [true] and after a
    [setUserShare] that returned; in the session handlers every signing
    call comes after an [importSession] that returned. *)
Theorem X18_no_signature_before_identity world enc env sreq dreq run :
  (run = signWithEthers world env dreq \/ run = signWithCosmJS world env dreq ->
   forall pre ev post,
     trace run = (pre ++ ev :: post)%list ->
     is_signing ev = true ->
     existsb wallet_confirmed pre = true /\
     existsb share_installed pre = true) /\
  (run = alchemySessionSignHandler world enc env sreq \/
   run = ethersSessionSignHandler world env sreq ->
   forall pre ev post,
     trace run = (pre ++ ev :: post)%list ->
     is_signing ev = true ->
     existsb session_imported pre = true).
Proof.
  split.
  - intros Hrun.
    apply (by_splits (fun pre ev _ =>
                        is_signing ev = true ->
                        existsb wallet_confirmed pre = true /\
                        existsb share_installed pre = true) (trace run)).
    destruct Hrun as [-> | ->]; by_wp.
    all: settle_flags.
    all: cbn; repeat split; intros; try discriminate; reflexivity.
  - intros Hrun.
    apply (by_splits (fun pre ev _ =>
                        is_signing ev = true ->
                        existsb session_imported pre = true) (trace run)).
    destruct Hrun as [-> | ->]; by_wp.
    all: cbn; repeat split; intros; try discriminate; reflexivity.
Qed.

Lemma X18_no_signature_before_identity_witness :
  existsb share_installed
    [Ev (simulateVerifyToken (Some "token-1"))
        (inr (Some {| user_email := "a@b.com" |}));
     Ev req_json (inr {| rb_email := Some "a@b.com" |});
     Ev (new_CapsuleServer "BETA" "capsule-key") (inr tt);
     Ev (hasPregenWallet "a@b.com") (inr true);
     Ev (getKeyShareInDB "a@b.com") (inr (Some "ciphertext"));
     Ev (decrypt "ciphertext") (inr "share");
     Ev (setUserShare "share") (inr tt);
     Ev (new_CapsuleProtoSigner "cosmos") (inr tt);
     Ev (connectWithSigner "https://rpc-t.cosmos.nodestake.top") (inr tt);
     Ev protoSigner_address (inr "cosmos1abc")] = true.
Proof.
  refine (proj2 (proj1 (X18_no_signature_before_identity Scenario.cooperative
                   Scenario.encodeFunctionData Scenario.env_all
                   Scenario.with_session Scenario.bearer _)
                   (or_intror eq_refl) _ _ [] eq_refl _)).
  reflexivity.
Defined.

(** X19: the statuses the handlers can answer.  A session handler
    answers 200, 400 or 500 and nothing else; a pregenerated-wallet
    handler answers 200, 400, 401, 403 or 500 and nothing else.  The
    body is a JSON object exactly when the status is 200, and plain
    text otherwise. *)
Theorem X19_statuses world enc env sreq dreq run resp :
  outcome run = Sent resp ->
  (run = alchemySessionSignHandler world enc env sreq \/
   run = ethersSessionSignHandler world env sreq ->
   (status resp = 200 \/ status resp = 400 \/ status resp = 500)) /\
  (run = signWithEthers world env dreq \/ run = signWithCosmJS world env dreq ->
   (status resp = 200 \/ status resp = 400 \/ status resp = 401 \/
    status resp = 403 \/ status resp = 500)) /\
  (run = alchemySessionSignHandler world enc env sreq \/
   run = ethersSessionSignHandler world env sreq \/
   run = signWithEthers world env dreq \/ run = signWithCosmJS world env dreq ->
   (status resp = 200 <-> exists fields, body resp = Json fields) /\
   (status resp <> 200 <-> exists text, body resp = Text text)).
Proof.
  intros Hout. split; [| split].
  - intros Hrun. revert resp Hout. destruct Hrun as [-> | ->]; by_wp.
    all: intros resp [= <-]; cbn; tauto.
  - intros Hrun. revert resp Hout. destruct Hrun as [-> | ->]; by_wp.
    all: intros resp [= <-]; cbn; tauto.
  - intros Hrun. revert resp Hout.
    destruct Hrun as [-> | [-> | [-> | ->]]]; by_wp.
    all: intros resp [= <-]; cbn.
    all: repeat split; intros H;
      solve [ reflexivity | discriminate | eexists; reflexivity
            | exfalso; apply H; reflexivity
            | destruct H as [x H]; discriminate H ].
Qed.

Lemma X19_statuses_witness :
  status (text_response 403 "Forbidden") = 200 \/
  status (text_response 403 "Forbidden") = 400 \/
  status (text_response 403 "Forbidden") = 401 \/
  status (text_response 403 "Forbidden") = 403 \/
  status (text_response 403 "Forbidden") = 500.
Proof.
  assert (E : outcome (signWithEthers Scenario.other_email Scenario.env_all
                         Scenario.bearer)
              = Sent (text_response 403 "Forbidden"))
    by (vm_compute; reflexivity).
  exact (proj1 (proj2 (X19_statuses Scenario.other_email
                         Scenario.encodeFunctionData Scenario.env_all
                         Scenario.with_session Scenario.bearer _ _ E))
           (or_introl eq_refl)).
Defined.

(* ================================================================== *)
(** ** When the handlers reach their 200 *)
(* ================================================================== *)

(** Replace each call by the answer the hypothesis [Hw] provides. *)
Ltac answer_calls world Hw :=
  repeat match goal with
         | |- context [world ?X ?h ?c] =>
             let x := fresh "x" in
             let E := fresh "E" in
             destruct (Hw X h c) as [x E]; rewrite E; clear E
         end.

(** The call is logged with the answer of the collaborators at hand. *)
Lemma wp_call_exact (world : World) {X} (c : Call X) h
    (Q : History * (Exn + X) -> Prop) :
  Q ((h ++ [Ev c (world X h c)])%list, world X h c) -> wp (call world c) h Q.
Proof. exact (fun H => H). Qed.

(** X20: the session handlers answer 200 as soon as the request and
    the environment are complete and no collaborator throws: a
    non-empty session (and email, for the ethers route), the variables
    the route names, and, for the Alchemy route, an encoding for each
    of the five arguments. *)
Theorem X20_session_handlers_succeed world enc env req :
  truthy (body_session req) <> None ->
  truthy (env "CAPSULE_API_KEY") <> None ->
  (forall X h (c : Call X), exists x, world X h c = inr x) ->
  (truthy (body_email req) <> None ->
   status_of (ethersSessionSignHandler world env req) = Some 200) /\
  (truthy (env "ALCHEMY_API_KEY") <> None ->
   truthy (env "ALCHEMY_GAS_POLICY_ID") <> None ->
   (forall x, In x [1; 2; 3; 4; 5] -> exists d, enc "changeX" [x] = inr d) ->
   status_of (alchemySessionSignHandler world enc env req) = Some 200).
Proof.
  intros Hs Hk Hw. split.
  - intros He.
    unfold ethersSessionSignHandler, ethersSessionSignHandler_try,
      express_try_catch.
    destruct (truthy (body_email req)); [| contradiction].
    destruct (truthy (body_session req)); [| contradiction].
    destruct (truthy (env "CAPSULE_API_KEY")); [| contradiction].
    unfold bind, call, ret. answer_calls world Hw. reflexivity.
  - intros Ha Hp Henc.
    exact (alchemy_session_success world enc env req Hs Hk Ha Hp Hw Henc).
Qed.

Lemma X20_session_handlers_succeed_witness :
  status_of (ethersSessionSignHandler Scenario.cooperative Scenario.env_all
               Scenario.with_session) = Some 200.
Proof.
  refine (proj1 (X20_session_handlers_succeed Scenario.cooperative
                   Scenario.encodeFunctionData Scenario.env_all
                   Scenario.with_session _ _ _) _).
  - simpl. discriminate.
  - simpl. discriminate.
  - intros X h c. destruct c; simpl; eexists; reflexivity.
  - simpl. discriminate.
Defined.

(** X21: the pregenerated-wallet handlers answer 200 as soon as the
    header starts with [Bearer ], the token is verified as a subject
    whose email is the one of the body, [CAPSULE_API_KEY] is set, the
    wallet exists, a non-empty key share is on file and no collaborator
    throws. *)
Theorem X21_pregen_handlers_succeed (world : World) (env : Env)
    (req : DenoRequest) (header email : string) :
  authorization req = Some header ->
  String.prefix "Bearer " header = true ->
  truthy (env "CAPSULE_API_KEY") <> None ->
  (forall h token,
     world _ h (simulateVerifyToken token) = inr (Some {| user_email := email |})) ->
  (forall h, world _ h req_json = inr {| rb_email := Some email |}) ->
  (forall h e, world _ h (hasPregenWallet e) = inr true) ->
  (forall h e, exists share,
     world _ h (getKeyShareInDB e) = inr (Some share) /\ share <> "") ->
  (forall X h (c : Call X), exists x, world X h c = inr x) ->
  status_of (signWithEthers world env req) = Some 200 /\
  status_of (signWithCosmJS world env req) = Some 200.
Proof.
  intros Hh Hp Hk Hverify Hbody Hwallet Hshare Hw.
  assert (Ht : truthy (Some header) = Some header).
  { unfold truthy. destruct header; [discriminate Hp | reflexivity]. }
  assert (Hs : forall h e, exists share,
             world _ h (getKeyShareInDB e) = inr (Some share) /\
             truthy (Some share) = Some share).
  { intros h e. destruct (Hshare h e) as (share & E & Ne).
    exists share. split; [exact E |]. unfold truthy.
    apply String.eqb_neq in Ne. now rewrite Ne. }
  assert (Prologue : forall (continue : M Response) Q,
             (forall h, wp continue h Q) ->
             wp (pregen_prologue world env req continue) [] Q).
  { intros continue Q Hc. unfold pregen_prologue.
    rewrite Hh, Ht, Hp. cbn [negb].
    apply wp_bind, wp_call_exact. rewrite Hverify. cbn [fst snd].
    apply wp_bind, wp_call_exact. rewrite Hbody. cbn [fst snd rb_email user_email].
    rewrite String.eqb_refl. cbn [negb].
    destruct (truthy (env "CAPSULE_API_KEY")); [| contradiction].
    apply wp_bind, wp_call_exact.
    match goal with
    | |- context [world ?X ?h ?c] => destruct (Hw X h c) as [x E]; rewrite E
    end.
    cbn [fst snd].
    apply wp_bind, wp_call_exact. rewrite Hwallet. cbn [fst snd negb].
    apply wp_bind, wp_call_exact.
    match goal with
    | |- context [world _ ?h (getKeyShareInDB ?e)] =>
        destruct (Hs h e) as (share & Es & T); rewrite Es
    end.
    cbn [fst snd]. rewrite T.
    apply wp_bind, wp_call_exact.
    match goal with
    | |- context [world ?X ?h ?c] => destruct (Hw X h c) as [plain Ep]; rewrite Ep
    end.
    cbn [fst snd].
    apply wp_bind, wp_call_exact.
    match goal with
    | |- context [world ?X ?h ?c] => destruct (Hw X h c) as [u Eu]; rewrite Eu
    end.
    cbn [fst snd]. apply Hc. }
  split.
  - unfold signWithEthers.
    refine (async_handler_wp _ (fun run => status_of run = Some 200) _).
    apply Prologue. intros h.
    repeat first
      [ apply wp_bind
      | apply wp_call_exact;
        match goal with
        | |- context [world ?X ?h ?c] =>
            let x := fresh "x" in
            let E := fresh "E" in
            destruct (Hw X h c) as [x E]; rewrite E; clear E
        end; cbn [fst snd]
      | apply wp_ret ].
    reflexivity.
  - unfold signWithCosmJS.
    refine (async_handler_wp _ (fun run => status_of run = Some 200) _).
    apply Prologue. intros h.
    repeat first
      [ apply wp_bind
      | apply wp_call_exact;
        match goal with
        | |- context [world ?X ?h ?c] =>
            let x := fresh "x" in
            let E := fresh "E" in
            destruct (Hw X h c) as [x E]; rewrite E; clear E
        end; cbn [fst snd]
      | apply wp_ret ].
    reflexivity.
Qed.

Lemma X21_pregen_handlers_succeed_witness :
  status_of (signWithEthers Scenario.cooperative Scenario.env_all
               Scenario.bearer) = Some 200.
Proof.
  refine (proj1 (X21_pregen_handlers_succeed Scenario.cooperative
                   Scenario.env_all Scenario.bearer "Bearer token-1" "a@b.com"
                   eq_refl eq_refl _ _ _ _ _ _)).
  - simpl. discriminate.
  - reflexivity.
  - reflexivity.
  - reflexivity.
  - intros h e. exists "ciphertext". split; [reflexivity | discriminate].
  - intros X h c. destruct c; simpl; eexists; reflexivity.
Defined.

(* ================================================================== *)
(** ** The two pregenerated-wallet handlers side by side *)
(* ================================================================== *)

Lemma agree_bind {A} (m : M A) (f1 f2 : A -> M Response) (k1 k2 : M Response)
    (h : History) :
  (forall a h', f1 a h' = f2 a h' \/
                exists h'', f1 a h' = k1 h'' /\ f2 a h' = k2 h'') ->
  bind m f1 h = bind m f2 h \/
  exists h'', bind m f1 h = k1 h'' /\ bind m f2 h = k2 h''.
Proof.
  intros H. unfold bind. destruct (m h) as [h' [e | a]]; [now left | apply H].
Qed.

(** Two handlers built on the shared steps differ only in what they do
    after them: their runs are equal, or both went through the shared
    steps with the same log. *)
Lemma prologue_agree world env req (k1 k2 : M Response) (h : History) :
  pregen_prologue world env req k1 h = pregen_prologue world env req k2 h \/
  exists h', pregen_prologue world env req k1 h = k1 h' /\
             pregen_prologue world env req k2 h = k2 h'.
Proof.
  unfold pregen_prologue.
  destruct (truthy (authorization req)) as [authHeader |]; [| now left].
  destruct (negb (String.prefix "Bearer " authHeader)); [now left |].
  apply agree_bind. intros [user |] h1; [| now left].
  apply agree_bind. intros requestBody h2.
  destruct (rb_email requestBody) as [email |]; [| now left].
  destruct (negb (String.eqb (user_email user) email)); [now left |].
  destruct (truthy (env "CAPSULE_API_KEY")) as [key |]; [| now left].
  apply agree_bind. intros _ h3.
  apply agree_bind. intros hasWallet h4.
  destruct (negb hasWallet); [now left |].
  apply agree_bind. intros keyShare h5.
  destruct (truthy keyShare) as [share |]; [| now left].
  apply agree_bind. intros plain h6.
  apply agree_bind. intros _ h7.
  right. now exists h7.
Qed.

Lemma prologue_early_exit world env req (k1 k2 : M Response) :
  (forall h, existsb (touches ChainLibrary) (fst (k1 h)) = true) ->
  existsb (touches ChainLibrary) (fst (pregen_prologue world env req k1 []))
  = false ->
  pregen_prologue world env req k2 [] = pregen_prologue world env req k1 [].
Proof.
  intros Hk1 Hquiet.
  destruct (prologue_agree world env req k1 k2 []) as [E | (h' & E1 & E2)].
  - now symmetry.
  - rewrite E1, Hk1 in Hquiet. discriminate Hquiet.
Qed.

Ltac chain_part_logged :=
  let h := fresh "h" in
  intros h;
  lazymatch goal with
  | |- existsb ?p (fst (?k h)) = true =>
      change (wp k h (fun hr => existsb p (fst hr) = true))
  end;
  repeat wp_step;
  cbv beta; cbn [fst snd];
  rewrite !existsb_app; cbn;
  destruct (existsb (touches ChainLibrary) h); reflexivity.

(** X22: the two pregenerated-wallet handlers treat a request alike
    up to the chain-specific part.  If the run of one of them has no
    call to a chain library, which is the case for every 401, 403, 500
    and 400 and for every error of the identity resolution, then the
    run of the other one, with the same collaborators, is the same run. *)
Theorem X22_pregen_handlers_agree world env req :
  (existsb (touches ChainLibrary) (trace (signWithEthers world env req)) = false ->
   signWithCosmJS world env req = signWithEthers world env req) /\
  (existsb (touches ChainLibrary) (trace (signWithCosmJS world env req)) = false ->
   signWithEthers world env req = signWithCosmJS world env req).
Proof.
  assert (Trace : forall block, trace (async_handler block) = fst (block [])).
  { intros block. unfold trace, async_handler.
    now destruct (block []) as [h [e | resp]]. }
  split; intros H; unfold signWithEthers, signWithCosmJS in H;
    rewrite Trace in H;
    unfold signWithCosmJS, signWithEthers, async_handler;
    lazymatch type of H with
    | context [pregen_prologue _ _ _ ?k1 _] =>
        assert (Hk1 : forall h, existsb (touches ChainLibrary) (fst (k1 h)) = true)
          by chain_part_logged;
        lazymatch goal with
        | |- match pregen_prologue _ _ _ ?k2 _ with _ => _ end = _ =>
            rewrite (prologue_early_exit world env req k1 k2 Hk1 H)
        end
    end;
    reflexivity.
Qed.

Lemma X22_pregen_handlers_agree_witness :
  signWithCosmJS Scenario.no_wallet Scenario.env_all Scenario.bearer
  = signWithEthers Scenario.no_wallet Scenario.env_all Scenario.bearer.
Proof.
  apply (proj1 (X22_pregen_handlers_agree Scenario.no_wallet Scenario.env_all
                  Scenario.bearer)).
  vm_compute. reflexivity.
Defined.

(* ================================================================== *)
(** ** What the handlers never do *)
(* ================================================================== *)




(** X24: in every run of a pregenerated-wallet handler, finished or
    not, the wallet check and the key-share lookup are made only for
    the email of the subject the token was verified as; only a share
    the store returned is decrypted; and only the result of that
    decryption is installed with [setUserShare]. *)
Theorem X24_share_of_the_subject_only world env req run :
  run = signWithEthers world env req \/ run = signWithCosmJS world env req ->
  (forall email, In email (collect queried_email (trace run)) ->
     exists user, In user (collect verified_subject (trace run)) /\
                  email = user_email user) /\
  (forall share, In share (collect decrypt_input (trace run)) ->
     In share (collect stored_share (trace run))) /\
  (forall plain, In plain (collect installed_share (trace run)) ->
     In plain (collect decrypt_output (trace run))).
Proof.
  intros [-> | ->]; by_wp.
  all: settle_flags; name_truthy; name_email; subst.
  all: cbn; repeat split; intros x Hx.
  all: repeat (destruct Hx as [<- | Hx]); try contradiction.
  all: try (now left).
  all: eexists; split; [left; reflexivity | reflexivity].
Qed.

Lemma X24_share_of_the_subject_only_witness :
  exists user,
    In user (collect verified_subject
               (trace (signWithEthers Scenario.cooperative Scenario.env_all
                         Scenario.bearer))) /\
    "a@b.com" = user_email user.
Proof.
  apply (proj1 (X24_share_of_the_subject_only Scenario.cooperative
                  Scenario.env_all Scenario.bearer _ (or_introl eq_refl))
           "a@b.com").
  vm_compute. left. reflexivity.
Defined.

(** X25: in every run of every handler, the Capsule client is built
    with the value of [CAPSULE_API_KEY] and with nothing else, and the
    session handlers import the session of the request body and no
    other. *)
Theorem X25_key_and_session_pass_through world enc env sreq dreq run :
  run = alchemySessionSignHandler world enc env sreq \/
  run = ethersSessionSignHandler world env sreq \/
  run = signWithEthers world env dreq \/
  run = signWithCosmJS world env dreq ->
  (forall key, In key (collect client_key (trace run)) ->
     env "CAPSULE_API_KEY" = Some key) /\
  (forall session, In session (collect imported_session (trace run)) ->
     body_session sreq = Some session).
Proof.
  intros Hrun. destruct Hrun as [-> | [-> | [-> | ->]]]; by_wp.
  all: name_truthy.
  all: cbn; split; intros x Hx.
  all: repeat (destruct Hx as [<- | Hx]); try contradiction.
  all: assumption.
Qed.

Lemma X25_key_and_session_pass_through_witness :
  Scenario.env_all "CAPSULE_API_KEY" = Some "capsule-key".
Proof.
  apply (proj1 (X25_key_and_session_pass_through Scenario.cooperative
                  Scenario.encodeFunctionData Scenario.env_all
                  Scenario.with_session Scenario.bearer _
                  (or_intror (or_introl eq_refl)))
           "capsule-key").
  vm_compute. left. reflexivity.
Defined.
